(** * Validation and leakage audit (scripts/audit_validation.py)

    A shallow embedding of the audit script: target detection, token based
    column roles, the per-feature leakage scores, the ordering of the
    "top suspicious" list, the temporal split sizes and the outer loop of
    the nested cross-validation.

    Conventions of the embedding.
    - A [DataFrame] is the ordered list of its named columns, as
      [pd.read_csv] builds it: column labels are strings and pairwise
      distinct, and every column is homogeneous (integer, [float64] with
      NaN, [bool], or [object] holding strings and NaN).
    - Real-valued scores are rationals ([Q]); the positional split sizes
      are computed in binary64, as [int(0.7 * n)] is.
    - A Python [dict] is a [gmap] keyed by strings; an exception is a
      constructor of [result]. *)

From Stdlib Require Import ZArith QArith Qminmax Lqa Bool Lia List Ascii String.
From Stdlib Require Import Permutation Sorting.Sorted.
From Stdlib Require Import Floats.SpecFloat.
From stdpp Require Import gmap strings.

Import ListNotations.
Local Open Scope string_scope.
Local Open Scope list_scope.

(** ** Strings: [str.lower] and the substring test [t in s] *)

Module Str.

(** [c.lower()] on one ASCII character; other characters are unchanged. *)
Definition lower_ascii (a : ascii) : ascii :=
  let n := nat_of_ascii a in
  if (65 <=? n)%nat && (n <=? 90)%nat then ascii_of_nat (n + 32) else a.

Fixpoint lower (s : string) : string :=
  match s with
  | EmptyString => EmptyString
  | String a s' => String (lower_ascii a) (lower s')
  end.

(** [t in s] for two strings: [t] occurs in [s] as a contiguous block. *)
Fixpoint contains (t s : string) : bool :=
  String.prefix t s ||
  match s with
  | EmptyString => false
  | String _ s' => contains t s'
  end.

(** [name in names], membership in a list of labels. *)
Definition mem (name : string) (names : list string) : bool :=
  existsb (String.eqb name) names.

(** [sep.join(items)]. *)
Definition join (sep : string) (items : list string) : string :=
  String.concat sep items.

End Str.

(** ** Data model *)

(** The exceptions the script can raise on the paths modelled here. *)
Inductive result (A : Type) : Type :=
| Ok (a : A)
| ValueError (msg : string).
Arguments Ok {A} a.
Arguments ValueError {A} msg.

(** [Integer] stands for the integer dtypes ([int64], [uint64]). *)
Inductive dtype := Integer | Float64 | Bool | Object.

(** A column's values, by dtype.  NaN is [None]. *)
Inductive series :=
| IntCol (v : list Z)
| FloatCol (v : list (option Q))
| BoolCol (v : list bool)
| ObjCol (v : list (option string)).

(** One cell as Python sees it: a number (booleans compare equal to 0 and
    1), a string, or a missing value. *)
Inductive cell :=
| NA
| Num (q : Q)
| Txt (s : string).

Definition dtype_of (s : series) : dtype :=
  match s with
  | IntCol _ => Integer
  | FloatCol _ => Float64
  | BoolCol _ => Bool
  | ObjCol _ => Object
  end.

Definition cells (s : series) : list cell :=
  match s with
  | IntCol v => map (fun z => Num (inject_Z z)) v
  | FloatCol v => map (fun o => match o with Some q => Num q | None => NA end) v
  | BoolCol v => map (fun b : bool => Num (if b then 1 else 0)%Q) v
  | ObjCol v => map (fun o => match o with Some s => Txt s | None => NA end) v
  end.

Record column := Column { name : string; data : series }.

(** [df.columns] is [map name df]; [len(df)] is the length of any column. *)
Definition DataFrame := list column.

Definition columns (df : DataFrame) : list string := map name df.

Definition n_rows (df : DataFrame) : nat :=
  match df with
  | [] => 0
  | c :: _ => List.length (cells (data c))
  end.

(** [pd.api.types.is_numeric_dtype] and [is_integer_dtype]. *)
Definition is_numeric_dtype (s : series) : bool :=
  match dtype_of s with Object => false | _ => true end.

Definition is_integer_dtype (s : series) : bool :=
  match dtype_of s with Integer => true | _ => false end.

(** ** Config and constants *)

Definition N_OUTER : nat := 5.
Definition N_INNER : nat := 3.

Definition TARGET_PREFERRED : list string := ["Diagnosis"; "diagnosis"].
Definition TARGET_CANDIDATE_HINTS : list string :=
  ["diagnosis"; "label"; "target"; "alz"; "outcome"].

Definition COGNITIVE_TOKENS : list string :=
  ["mmse"; "functional"; "adl"; "memory"; "behavior"; "behaviour";
   "confusion"; "disorientation"; "personality"].
Definition SITE_TOKENS : list string :=
  ["site"; "hospital"; "center"; "centre"; "clinic"; "location"].
Definition DATE_TOKENS : list string := ["date"; "year"].
Definition ID_TOKENS : list string :=
  ["patientid"; "id"; "identifier"; "doctorincharge"].

(** ** Target detection *)

Definition cell_eqb (a b : cell) : bool :=
  match a, b with
  | NA, NA => true
  | Num p, Num q => Qeq_bool p q
  | Txt s, Txt t => String.eqb s t
  | _, _ => false
  end.

(** [s.dropna()]. *)
Definition dropna (l : list cell) : list cell :=
  List.filter (fun c => match c with NA => false | _ => true end) l.

(** [s.unique()]: the distinct values, in order of first appearance. *)
Fixpoint unique_from (seen l : list cell) : list cell :=
  match l with
  | [] => []
  | c :: l' =>
      if existsb (cell_eqb c) seen then unique_from seen l'
      else c :: unique_from (c :: seen) l'
  end.

Definition unique (l : list cell) : list cell := unique_from [] l.

(** [v in {0, 1}] by Python equality. *)
Definition in_zero_one (c : cell) : bool :=
  match c with
  | Num q => Qeq_bool q 0 || Qeq_bool q 1
  | _ => false
  end.

(** The test of the fallback loop:
    [len(vals) <= 3 and set(np.unique(vals)).issubset({0, 1})]. *)
Definition is_binary_column (c : column) : bool :=
  let vals := unique (dropna (cells (data c))) in
  (List.length vals <=? 3)%nat && forallb in_zero_one vals.

Fixpoint binary_candidates (df : DataFrame) : list string :=
  match df with
  | [] => []
  | c :: df' =>
      if is_binary_column c then name c :: binary_candidates df'
      else binary_candidates df'
  end.

(** [{c.lower(): c for c in df.columns}]: a later column replaces an
    earlier one with the same lowercased label. *)
Definition lower_cols (df : DataFrame) : gmap string string :=
  fold_left (fun m c => <[Str.lower c := c]> m) (columns df) ∅.

(** The loop over the preferred names. *)
Fixpoint first_preferred (names : list string) (df : DataFrame)
  : option string :=
  match names with
  | [] => None
  | n :: names' =>
      if Str.mem n (columns df) then Some n else first_preferred names' df
  end.

(** The loop over the hints: [hint in lower_cols] is key membership. *)
Fixpoint first_hint (hints : list string) (m : gmap string string)
  : option string :=
  match hints with
  | [] => None
  | h :: hints' =>
      match m !! h with
      | Some c => Some c
      | None => first_hint hints' m
      end
  end.

Definition ambiguous_msg (cands : list string) : string :=
  "Unable to uniquely determine target column. Candidates: "
  ++ Str.join ", " cands
  ++ ". Please rename your target to 'Diagnosis' or pass explicitly.".

Definition detect_target (df : DataFrame) : result string :=
  match first_preferred TARGET_PREFERRED df with
  | Some n => Ok n
  | None =>
      match first_hint TARGET_CANDIDATE_HINTS (lower_cols df) with
      | Some c => Ok c
      | None =>
          match binary_candidates df with
          | [c] => Ok c
          | cands => ValueError (ambiguous_msg cands)
          end
      end
  end.

(** ** Token based column roles *)

(** [list(dict.fromkeys(cols))]: first occurrences, in order. *)
Fixpoint fromkeys (seen l : list string) : list string :=
  match l with
  | [] => []
  | c :: l' =>
      if Str.mem c seen then fromkeys seen l'
      else c :: fromkeys (c :: seen) l'
  end.

(** [sorted] on labels: a stable insertion sort by code point order. *)
Fixpoint insert_label (c : string) (l : list string) : list string :=
  match l with
  | [] => [c]
  | d :: l' =>
      if String.ltb d c then d :: insert_label c l' else c :: l
  end.

Fixpoint sorted_labels (l : list string) : list string :=
  match l with
  | [] => []
  | c :: l' => insert_label c (sorted_labels l')
  end.

(** The inner loop of [find_columns_by_tokens]: some token occurs in the
    lowercased label. *)
Definition has_token (tokens : list string) (c : string) : bool :=
  existsb (fun t => Str.contains t (Str.lower c)) tokens.

Definition find_columns_by_tokens (df : DataFrame) (tokens : list string)
  : list string :=
  let cols := List.filter (has_token tokens) (columns df) in
  sorted_labels (fromkeys [] cols).

Definition get_id_like_columns (df : DataFrame) : list string :=
  find_columns_by_tokens df ID_TOKENS.

Definition get_cognitive_columns (df : DataFrame) : list string :=
  find_columns_by_tokens df COGNITIVE_TOKENS.

Definition get_site_column (df : DataFrame) : option string :=
  hd_error (find_columns_by_tokens df SITE_TOKENS).

(** [df[c]]: the column labelled [c]. *)
Fixpoint getitem (df : DataFrame) (c : string) : option series :=
  match df with
  | [] => None
  | col :: df' =>
      if String.eqb (name col) c then Some (data col) else getitem df' c
  end.

Section DateColumn.

(** [pd.to_datetime(s, errors="raise")] belongs to pandas; only whether
    it returns or raises matters here. *)
Variable to_datetime_ok : series -> bool.

(** The loop of [get_date_column].  A candidate is a label of [df], so
    [df[c]] is found; the [None] branch stands for the [KeyError] that
    cannot happen. *)
Fixpoint date_loop (df : DataFrame) (candidates : list string)
  : option string :=
  match candidates with
  | [] => None
  | c :: rest =>
      match getitem df c with
      | Some s =>
          if to_datetime_ok s then Some c
          else if is_integer_dtype s then Some c
          else date_loop df rest
      | None => date_loop df rest
      end
  end.

Definition get_date_column (df : DataFrame) : option string :=
  let candidates := find_columns_by_tokens df DATE_TOKENS in
  match date_loop df candidates with
  | Some c => Some c
  | None => hd_error candidates
  end.

(** The two probes of the loop, on a candidate label. *)
Definition parses (df : DataFrame) (c : string) : bool :=
  match getitem df c with Some s => to_datetime_ok s | None => false end.

Definition integer_typed (df : DataFrame) (c : string) : bool :=
  match getitem df c with Some s => is_integer_dtype s | None => false end.

(** The selection as the specification words it: three strict tiers,
    each a pass over all the candidates. *)
Definition three_tier_date_column (df : DataFrame) : option string :=
  let candidates := find_columns_by_tokens df DATE_TOKENS in
  match find (parses df) candidates with
  | Some c => Some c
  | None =>
      match find (integer_typed df) candidates with
      | Some c => Some c
      | None => hd_error candidates
      end
  end.

End DateColumn.

(** ** Binary64 arithmetic of the positional split *)

Module F64.

Definition prec : Z := 53.
Definition emax : Z := 1024.

(** [float(n)] for a Python integer, round to nearest even. *)
Definition of_int (n : Z) : spec_float := binary_normalize prec emax n 0 false.

Definition mul (x y : spec_float) : spec_float := SFmul prec emax x y.
Definition div (x y : spec_float) : spec_float := SFdiv prec emax x y.

(** The literals [0.7] and [0.85], that is [0x1.6666666666666p-1] and
    [0x1.b333333333333p-1]. *)
Definition c0_7 : spec_float := S754_finite false 6305039478318694 (-53).
Definition c0_85 : spec_float := S754_finite false 7656119366529843 (-53).

(** [int(x)]: truncation toward zero; [None] where Python raises. *)
Definition to_int (x : spec_float) : option Z :=
  match x with
  | S754_zero _ => Some 0%Z
  | S754_finite s m e =>
      let a := if (0 <=? e)%Z then (Z.pos m * 2 ^ e)%Z
               else (Z.pos m / 2 ^ (- e))%Z in
      Some (if s then (- a)%Z else a)
  | _ => None
  end.

End F64.

(** ** Temporal and site feasibility *)

Inductive temporal_report :=
| TemporalSizes (date_column : string) (sizes : list (string * Z))
| TemporalMessage (message : string).

Inductive site_report :=
| SiteGroups (site_column : string) (n_groups : nat)
| SiteMessage (message : string).

Record feasibility := Feasibility {
  temporal : temporal_report;
  site : site_report
}.

(** [int(0.7 * n)] and [int(0.85 * n)]; the product of a finite constant
    and a row count is finite, so [int] does not raise. *)
Definition tr_end (n : Z) : Z :=
  match F64.to_int (F64.mul F64.c0_7 (F64.of_int n)) with
  | Some z => z
  | None => 0%Z
  end.

Definition val_end (n : Z) : Z :=
  match F64.to_int (F64.mul F64.c0_85 (F64.of_int n)) with
  | Some z => z
  | None => 0%Z
  end.

(** [groups.nunique()] after [astype(str)]: a missing value becomes the
    string "nan" and counts as a group. *)
Definition n_groups_of (s : series) : nat := List.length (unique (cells s)).

Section Feasibility.

Variable to_datetime_ok : series -> bool.

Definition temporal_site_validation (df : DataFrame) (target : string)
  : feasibility :=
  let temporal :=
    match get_date_column to_datetime_ok df with
    | Some date_col =>
        let n := Z.of_nat (n_rows df) in
        let splits :=
          [("train", (0%Z, tr_end n));
           ("val", (tr_end n, val_end n));
           ("test", (val_end n, n))] in
        TemporalSizes date_col
          (map (fun kv : string * (Z * Z) =>
                  (fst kv, (snd (snd kv) - fst (snd kv))%Z)) splits)
    | None =>
        TemporalMessage "No date/year column detected; temporal split skipped."
    end in
  let site :=
    match get_site_column df with
    | Some site_col =>
        match getitem df site_col with
        | Some s => SiteGroups site_col (n_groups_of s)
        | None => SiteGroups site_col 0
        end
    | None =>
        SiteMessage
          "No site/hospital column detected; site validation suggestion recorded."
    end in
  Feasibility temporal site.

End Feasibility.

(** ** Leakage audit *)

(** [np.unique] on integer labels: the distinct values, ascending. *)
Fixpoint insert_unique (z : Z) (l : list Z) : list Z :=
  match l with
  | [] => [z]
  | a :: l' =>
      match (z ?= a)%Z with
      | Lt => z :: l
      | Eq => l
      | Gt => a :: insert_unique z l'
      end
  end.

Definition np_unique (y : list Z) : list Z := fold_right insert_unique [] y.

(** What one (positive, negative) pair adds to the area: 1 when the
    positive case scores higher, one half on a tie, 0 otherwise. *)
Definition rank_credit (p n : Q) : Q :=
  match (p ?= n)%Q with
  | Gt => 1%Q
  | Eq => (1 # 2)%Q
  | Lt => 0%Q
  end.

Definition sumQ (l : list Q) : Q := fold_right Qplus 0%Q l.

Definition pair_credit (pos neg : list Q) : Q :=
  sumQ (map (fun p => sumQ (map (rank_credit p) neg)) pos).

(** The scores of the rows whose label is [label]. *)
Definition scores_of (label : Z) (y_true : list Z) (y_score : list Q)
  : list Q :=
  map snd (List.filter (fun r : Z * Q => (fst r =? label)%Z)
                       (combine y_true y_score)).

Definition count_pairs (pos neg : list Q) : Q :=
  inject_Z (Z.of_nat (List.length pos * List.length neg)).

(** [roc_auc_score(y_true, y_score)] belongs to scikit-learn.  It is
    modelled by the ranking definition of the area under the ROC curve,
    the share of (positive, negative) pairs the score orders correctly,
    which is what the trapezoidal rule on the ROC curve computes.  It
    raises unless [y_true] holds exactly two classes; the larger label is
    the positive class. *)
Definition roc_auc_score (y_true : list Z) (y_score : list Q) : result Q :=
  if negb (List.length y_true =? List.length y_score)%nat then
    ValueError "Found input variables with inconsistent numbers of samples"
  else
    match np_unique y_true with
    | [neg_label; pos_label] =>
        let pos := scores_of pos_label y_true y_score in
        let neg := scores_of neg_label y_true y_score in
        Ok (pair_credit pos neg / count_pairs pos neg)%Q
    | [] | [_] =>
        ValueError
          "Only one class present in y_true. ROC AUC score is not defined in that case."
    | _ => ValueError "multi_class must be in ('ovo', 'ovr')"
    end.

(** The values of a numeric column as scores; [None] when a value is
    missing, where [roc_auc_score] raises on its input check. *)
Fixpoint all_present (v : list (option Q)) : option (list Q) :=
  match v with
  | [] => Some []
  | None :: _ => None
  | Some q :: v' =>
      match all_present v' with
      | Some l => Some (q :: l)
      | None => None
      end
  end.

Definition numeric_scores (x : series) : option (list Q) :=
  match x with
  | IntCol v => Some (map inject_Z v)
  | FloatCol v => all_present v
  | BoolCol v => Some (map (fun b : bool => if b then 1%Q else 0%Q) v)
  | ObjCol _ => None
  end.

Definition object_values (x : series) : list (option string) :=
  match x with
  | ObjCol v => v
  | _ => []
  end.

(** The levels [pd.get_dummies] makes indicator columns for: the distinct
    non-missing values, sorted. *)
Fixpoint present_values (v : list (option string)) : list string :=
  match v with
  | [] => []
  | Some s :: v' => s :: present_values v'
  | None :: v' => present_values v'
  end.

Definition levels (v : list (option string)) : list string :=
  sorted_labels (fromkeys [] (present_values v)).

Definition is_level (l : string) (o : option string) : bool :=
  match o with
  | Some s => String.eqb s l
  | None => false
  end.

Definition is_missing (o : option string) : bool :=
  match o with
  | Some _ => false
  | None => true
  end.

(** [pd.get_dummies(x, dummy_na=True)]: one indicator column per level,
    then the indicator of a missing value, labelled [nan]. *)
Definition get_dummies (v : list (option string))
  : list (string * list bool) :=
  map (fun l => (l, map (is_level l) v)) (levels v)
  ++ [("nan", map is_missing v)].

(** [xs.mean(axis=1)]: the mean of each row over the indicator columns. *)
Definition row_mean (xs : list (string * list bool)) (n : nat) : list Q :=
  map (fun i =>
         (inject_Z (Z.of_nat
            (List.length (List.filter (fun c => nth i (snd c) false) xs)))
          / inject_Z (Z.of_nat (List.length xs)))%Q)
      (seq 0 n).

(** The body of the [try] in [single_feature_auc], before the fold. *)
Definition feature_score (y : list Z) (x : series) : result Q :=
  if is_numeric_dtype x then
    match numeric_scores x with
    | Some xs => roc_auc_score y xs
    | None => ValueError "Input contains NaN."
    end
  else
    let v := object_values x in
    let xs := get_dummies v in
    let prob := row_mean xs (List.length v) in
    roc_auc_score y prob.

(** [max(score, 1 - score)]; Python's [max] keeps its first argument
    unless the second is strictly larger, as [Qmax] does. *)
Definition chance_distance (score : Q) : Q := Qmax score (1 - score)%Q.

(** One iteration of the loop: record the folded score, or [continue]. *)
Definition score_column (y : list Z) (aucs : gmap string Q) (c : column)
  : gmap string Q :=
  match feature_score y (data c) with
  | Ok score => <[name c := chance_distance score]> aucs
  | ValueError _ => aucs
  end.

Definition single_feature_auc (df : DataFrame) (y : list Z)
  : gmap string Q :=
  fold_left (score_column y) df ∅.

(** The complement of a numeric column, [1 - x]: on a column of zeros and
    ones it swaps the two values.  Missing values stay missing. *)
Definition complement (x : series) : series :=
  match x with
  | IntCol v => IntCol (map (fun z => (1 - z)%Z) v)
  | FloatCol v =>
      FloatCol (map (fun o => match o with
                              | Some q => Some (1 - q)%Q
                              | None => None
                              end) v)
  | BoolCol v => BoolCol (map negb v)
  | ObjCol v => ObjCol v
  end.

(** [X.drop(columns=[c])]. *)
Definition drop_column (c : string) (X : DataFrame) : DataFrame :=
  List.filter (fun col => negb (String.eqb (name col) c)) X.

(** [pd.get_dummies(X[c], prefix=c, dummy_na=True)] as columns. *)
Definition prefixed_dummies (c : string) (x : series) : DataFrame :=
  map (fun d : string * list bool =>
         Column (c ++ "_" ++ fst d) (BoolCol (snd d)))
      (get_dummies (object_values x)).

(** One iteration of the encoding loop of [mutual_info_scores]. *)
Definition encode_column (X_enc : DataFrame) (c : column) : DataFrame :=
  if is_numeric_dtype (data c) then X_enc
  else drop_column (name c) X_enc ++ prefixed_dummies (name c) (data c).

Definition encode (X : DataFrame) : DataFrame := fold_left encode_column X X.

(** [X_enc.fillna(0)]. *)
Definition fillna0 (X : DataFrame) : DataFrame :=
  map (fun c =>
         match data c with
         | FloatCol v =>
             Column (name c)
               (FloatCol (map (fun o => match o with
                                        | Some q => Some q
                                        | None => Some 0%Q
                                        end) v))
         | _ => c
         end) X.

(** One row of the sorted table, and its entry in the report ([None] is
    NaN in the table and [null] in the report). *)
Record suspicious_entry := Suspicious {
  feature : string;
  single_feature_auc_of : option Q;
  mutual_info : option Q
}.

(** One component of the sort key: [not math.isnan(v) and -v], which is
    [False], equal to 0 in comparisons, for NaN and [-v] otherwise. *)
Definition key_part (v : option Q) : Q :=
  match v with
  | Some q => (- q)%Q
  | None => 0%Q
  end.

(** [key(a) < key(b)] on the key tuples, as Python compares tuples. *)
Definition key_lt (a b : suspicious_entry) : bool :=
  let a1 := key_part (single_feature_auc_of a) in
  let b1 := key_part (single_feature_auc_of b) in
  if Qeq_bool a1 b1 then
    negb (Qle_bool (key_part (mutual_info b)) (key_part (mutual_info a)))
  else negb (Qle_bool b1 a1).

(** [sorted(rows, key=...)]: stable. *)
Fixpoint insert_entry (x : suspicious_entry) (l : list suspicious_entry)
  : list suspicious_entry :=
  match l with
  | [] => [x]
  | e :: l' => if key_lt e x then e :: insert_entry x l' else x :: l
  end.

Fixpoint sorted_entries (l : list suspicious_entry) : list suspicious_entry :=
  match l with
  | [] => []
  | x :: l' => insert_entry x (sorted_entries l')
  end.

Section Leakage.

(** [mutual_info_classif(X, y, random_state=RANDOM_STATE)] belongs to
    scikit-learn: one estimate per column of [X]. *)
Variable mutual_info_classif : DataFrame -> list Z -> list Q.

Definition mutual_info_scores (X : DataFrame) (y : list Z)
  : gmap string Q :=
  let X_enc := encode X in
  let mi := mutual_info_classif (fillna0 X_enc) y in
  fold_left (fun (m : gmap string Q) (kv : string * Q) =>
               <[fst kv := snd kv]> m)
            (combine (columns X_enc) mi) ∅.

(** The leakage part of [main], up to [top_suspicious]. *)
Definition suspicious (df : DataFrame) (target : string) (y : list Z)
  : list suspicious_entry :=
  let aucs := single_feature_auc (drop_column target df) y in
  let mi := mutual_info_scores (drop_column target df) y in
  sorted_entries
    (map (fun c => Suspicious c (aucs !! c) (mi !! c))
         (List.filter (fun c => negb (String.eqb c target)) (columns df))).

Definition top_suspicious (df : DataFrame) (target : string) (y : list Z)
  : list suspicious_entry :=
  firstn 30 (suspicious df target y).

End Leakage.

(** ** Nested cross-validation *)

(** [X.iloc[idx]]: the rows at the positions [idx], in that order. *)
Definition iloc {A : Type} (l : list A) (idx : list nat) : list A :=
  flat_map (fun i => match nth_error l i with
                     | Some a => [a]
                     | None => []
                     end) idx.

Definition meanQ (l : list Q) : Q :=
  (sumQ l / inject_Z (Z.of_nat (List.length l)))%Q.

Section NestedCV.

(** A row of the feature matrix, the model family with its grid, and
    what the search returns: all scikit-learn's. *)
Variables row model grid params fitted : Type.

(** [StratifiedKFold(n_splits, shuffle=True, random_state=RANDOM_STATE)]
    assigns every row the number of the fold that tests it
    ([_make_test_folds]); the assignment depends on the labels only. *)
Variable make_test_folds : nat -> list Z -> list nat.

(** [build_pipeline(Xtr, model)] followed by [GridSearchCV(...).fit(Xtr,
    ytr)]: preprocessing and classifier are fitted on the rows passed. *)
Variable search_fit : model -> grid -> list row -> list Z -> fitted.
Variable best_params_ : fitted -> params.
Variable best_score_ : fitted -> Q.
(** [best.predict_proba(Xte)[:, 1]]. *)
Variable predict_proba : fitted -> list row -> list Q.

(** [outer.split(X, y)]: fold [i] tests the rows assigned to [i] and
    trains on the others, both in ascending row order. *)
Definition split (n_splits : nat) (X : list row) (y : list Z)
  : list (list nat * list nat) :=
  let test_folds := make_test_folds n_splits y in
  let indices := seq 0 (List.length X) in
  map (fun i =>
         (List.filter (fun j => negb (nth j test_folds 0 =? i)%nat) indices,
          List.filter (fun j => (nth j test_folds 0 =? i)%nat) indices))
      (seq 0 n_splits).

Record fold_detail := FoldDetail {
  fold : nat;
  best_params : params;
  val_score : Q;
  test_auc : Q
}.

(** The estimator the body of the loop fits for one fold. *)
Definition fit_fold (m : model) (param_grid : grid)
    (X : list row) (y : list Z) (tr_idx : list nat) : fitted :=
  let Xtr := iloc X tr_idx in
  let ytr := iloc y tr_idx in
  search_fit m param_grid Xtr ytr.

(** The body of the loop. *)
Definition run_fold (m : model) (param_grid : grid)
    (X : list row) (y : list Z) (fold_idx : nat)
    (tr_idx te_idx : list nat) : result fold_detail :=
  let Xte := iloc X te_idx in
  let yte := iloc y te_idx in
  let search := fit_fold m param_grid X y tr_idx in
  let proba := predict_proba search Xte in
  match roc_auc_score yte proba with
  | Ok auc =>
      Ok (FoldDetail fold_idx (best_params_ search) (best_score_ search) auc)
  | ValueError msg => ValueError msg
  end.

Fixpoint run_folds (m : model) (param_grid : grid)
    (X : list row) (y : list Z) (fold_idx : nat)
    (folds : list (list nat * list nat)) : result (list fold_detail) :=
  match folds with
  | [] => Ok []
  | (tr_idx, te_idx) :: rest =>
      match run_fold m param_grid X y fold_idx tr_idx te_idx with
      | Ok d =>
          match run_folds m param_grid X y (S fold_idx) rest with
          | Ok ds => Ok (d :: ds)
          | ValueError msg => ValueError msg
          end
      | ValueError msg => ValueError msg
      end
  end.

(** The summary, without [std_auc] (a square root). *)
Record nested_summary := NestedSummary {
  outer_scores : list Q;
  mean_auc : Q;
  folds : list fold_detail
}.

Definition nested_cv_scores (m : model) (param_grid : grid)
    (X : list row) (y : list Z) : result nested_summary :=
  match run_folds m param_grid X y 1 (split N_OUTER X y) with
  | Ok fold_details =>
      let scores := map test_auc fold_details in
      Ok (NestedSummary scores (meanQ scores) fold_details)
  | ValueError msg => ValueError msg
  end.

End NestedCV.

Arguments split {row} make_test_folds n_splits X y.
Arguments fit_fold {row model grid fitted} search_fit m param_grid X y tr_idx.

(** ** Feature sets and the preprocessing pipeline *)

(** The two ways [split_features] raises: [df[target]] on a label that is
    not a column, and [astype(int)] on a value that is no integer. *)
Inductive split_error :=
| KeyError (key : string)
| CastError.

(** [int(x)] on a float: truncation toward zero. *)
Definition truncate (q : Q) : Z := Z.quot (Qnum q) (Z.pos (Qden q)).

(** A cast of every value of a column; the first failure fails the cast. *)
Fixpoint cast_all {A : Type} (f : A -> option Z) (l : list A)
  : option (list Z) :=
  match l with
  | [] => Some []
  | a :: l' =>
      match f a, cast_all f l' with
      | Some z, Some zs => Some (z :: zs)
      | _, _ => None
      end
  end.

Section SplitFeatures.

(** Python's [int] on the text of a cell. *)
Variable int_of_text : string -> option Z.

(** [s.astype(int)]: a missing value cannot be cast. *)
Definition astype_int (s : series) : option (list Z) :=
  match s with
  | IntCol v => Some v
  | FloatCol v =>
      cast_all (fun o => match o with
                         | Some q => Some (truncate q)
                         | None => None
                         end) v
  | BoolCol v => Some (map (fun b : bool => if b then 1%Z else 0%Z) v)
  | ObjCol v =>
      cast_all (fun o => match o with
                         | Some t => int_of_text t
                         | None => None
                         end) v
  end.

(** The labels [split_features] drops. *)
Definition dropped_labels (df : DataFrame) (target : string)
    (drop_cognitive : bool) : list string :=
  let id_cols :=
    List.filter (fun c => negb (String.eqb c target)) (get_id_like_columns df) in
  let cognitive := if drop_cognitive then get_cognitive_columns df else [] in
  [target] ++ id_cols ++ cognitive.

Definition split_features (df : DataFrame) (target : string)
    (drop_cognitive : bool)
  : split_error + (DataFrame * list Z * list string) :=
  match getitem df target with
  | None => inl (KeyError target)
  | Some s =>
      match astype_int s with
      | None => inl CastError
      | Some y =>
          let X :=
            List.filter
              (fun col =>
                 negb (Str.mem (name col)
                         (dropped_labels df target drop_cognitive))) df in
          inr (X, y, columns X)
      end
  end.

End SplitFeatures.

(** The two column lists of [build_pipeline]; the transformers and the
    pipeline object are scikit-learn's. *)
Definition numeric_cols (X : DataFrame) : list string :=
  map name (List.filter (fun c => is_numeric_dtype (data c)) X).

Definition categorical_cols (X : DataFrame) : list string :=
  List.filter (fun c => negb (Str.mem c (numeric_cols X))) (columns X).

Record pipeline (model : Type) := Pipeline {
  num : list string;
  cat : list string;
  clf : model
}.
Arguments Pipeline {model} num cat clf.
Arguments num {model} p.
Arguments cat {model} p.
Arguments clf {model} p.

Definition build_pipeline {model : Type} (X : DataFrame) (m : model)
  : pipeline model :=
  Pipeline (numeric_cols X) (categorical_cols X) m.

(** [proxy_flags] of [main]: the keys of [aucs], in insertion order (the
    order of the columns, each label once), whose score is at least 0.98. *)
Definition proxy_flags (df : DataFrame) (target : string) (y : list Z)
  : list string :=
  let aucs := single_feature_auc (drop_column target df) y in
  List.filter
    (fun f => match aucs !! f with
              | Some a => Qle_bool (98 # 100) a
              | None => false
              end)
    (fromkeys [] (columns (drop_column target df))).

(** ** Specification predicates *)

(** Among entries that tie on the discriminative score, mutual
    information decreases. *)
Definition mi_descending (e1 e2 : suspicious_entry) : Prop :=
  match mutual_info e1, mutual_info e2 with
  | Some m1, Some m2 => (m2 <= m1)%Q
  | _, _ => True
  end.

(** [e1] may stand before [e2] in the list: a larger discriminative score
    first, mutual information deciding ties, and no entry without a
    discriminative score before one that has it. *)
Definition ranks_before (e1 e2 : suspicious_entry) : Prop :=
  match single_feature_auc_of e1, single_feature_auc_of e2 with
  | Some a1, Some a2 => (a2 < a1)%Q \/ ((a2 == a1)%Q /\ mi_descending e1 e2)
  | Some _, None => True
  | None, Some _ => False
  | None, None => mi_descending e1 e2
  end.

(** The order of the sort keys, as tuples. *)
Definition key_le (a b : suspicious_entry) : Prop :=
  (key_part (single_feature_auc_of a) < key_part (single_feature_auc_of b))%Q \/
  ((key_part (single_feature_auc_of a) == key_part (single_feature_auc_of b))%Q /\
   (key_part (mutual_info a) <= key_part (mutual_info b))%Q).

(** A recorded discriminative score is positive when present. *)
Definition auc_positive (e : suspicious_entry) : Prop :=
  match single_feature_auc_of e with
  | Some a => (0 < a)%Q
  | None => True
  end.

(** [b] is the complement of the score [a]. *)
Definition compl (a b : Q) : Prop := (b == 1 - a)%Q.

(** ** Example data *)

Definition ex_preferred : DataFrame :=
  [Column "Smoker" (IntCol [0; 1]%Z);
   Column "Diagnosis" (IntCol [1; 0]%Z);
   Column "Target_Label" (IntCol [1; 1]%Z)].

Definition ex_two_binary : DataFrame :=
  [Column "Age" (IntCol [70; 81; 64]%Z);
   Column "Smoker" (IntCol [0; 1; 0]%Z);
   Column "Hypertension" (BoolCol [true; false; true])].

Definition ex_hint_substring : DataFrame :=
  [Column "Outcome_Flag" (IntCol [0; 1; 0; 1]%Z);
   Column "Smoker" (IntCol [1; 0; 0; 1]%Z)].

(** A date parser for the example below: an unsigned integer column
    holding a value past the range of nanosecond timestamps is refused,
    every other column is accepted. *)
Definition ex_to_datetime_ok (s : series) : bool :=
  match s with
  | IntCol v => forallb (fun z => (z <? 2 ^ 63)%Z) v
  | _ => true
  end.

Definition ex_dates : DataFrame :=
  [Column "date_code" (IntCol [9223372036854775900; 3]%Z);
   Column "visit_date" (ObjCol [Some "2020-01-01"; Some "2021-06-30"])].

Definition years (n : nat) : list Z := map Z.of_nat (seq 1950 n).

Definition labels01 (n : nat) : list Z :=
  map (fun i => Z.of_nat (i mod 2)) (seq 0 n).

(** [n] rows with a column of sequential years. *)
Definition ex_dated (n : nat) : DataFrame :=
  [Column "Age" (IntCol (map (fun i => Z.of_nat (60 + i mod 30)) (seq 0 n)));
   Column "Date" (IntCol (years n));
   Column "Diagnosis" (IntCol (labels01 n))].

Definition ex_undated : DataFrame :=
  [Column "Age" (IntCol [70; 61; 83]%Z);
   Column "Diagnosis" (IntCol [1; 0; 1]%Z)].

Definition ex_smoker : series := IntCol [1; 0; 1; 1; 0; 0]%Z.
Definition ex_y : list Z := [1; 0; 1; 0; 0; 1]%Z.

Definition ex_mixed : DataFrame :=
  [Column "Age" (IntCol [70; 61; 83; 77]%Z);
   Column "Gender" (ObjCol [Some "M"; Some "F"; Some "F"; Some "M"]);
   Column "Diagnosis" (IntCol [1; 0; 1; 0]%Z)].

Definition ex_mixed_y : list Z := [1; 0; 1; 0]%Z.

(** A fold assignment that deals the rows round robin, and a search that
    returns the rows it was fitted on. *)
Definition ex_make_test_folds (n_splits : nat) (y : list Z) : list nat :=
  map (fun i => i mod n_splits) (seq 0 (List.length y)).

Definition ex_search_fit (m g : unit) (Xtr : list Z) (ytr : list Z)
  : list Z * list Z := (Xtr, ytr).

Definition ex_X : list Z := [70; 61; 83; 77; 58; 90; 66; 72; 81; 64; 75; 69]%Z.
Definition ex_labels : list Z := [1; 0; 1; 0; 0; 1; 0; 1; 1; 0; 1; 0]%Z.


(** ** Further predicates and example data *)

(** Code point order on labels. *)
Definition label_le (a b : string) : Prop := String.leb a b = true.

(** How many of the values 0 and 1 were seen already. *)
Definition seen_count (seen : list cell) : nat :=
  (if existsb (cell_eqb (Num 0)) seen then 1 else 0)
  + (if existsb (cell_eqb (Num 1)) seen then 1 else 0).

(** The two cut points of a split of [n] rows are in order, the first is
    the integer part of 7n/10 or one less, the second the integer part of
    85n/100. *)
Definition sizes_ok (n : Z) : bool :=
  ((0 <=? tr_end n) && (tr_end n <=? val_end n) && (val_end n <=? n)
   && ((tr_end n =? 7 * n / 10) || (tr_end n =? 7 * n / 10 - 1))
   && (val_end n =? 85 * n / 100))%Z.

Fixpoint all_below (k : nat) (p : Z -> bool) : bool :=
  match k with
  | O => true
  | S k' => p (Z.of_nat k') && all_below k' p
  end.

Definition ex_exact_hint : DataFrame :=
  [Column "Smoker" (IntCol [0; 1; 1]%Z);
   Column "OUTCOME" (IntCol [1; 0; 1]%Z)].

Definition ex_one_binary : DataFrame :=
  [Column "Age" (IntCol [70; 81; 64]%Z);
   Column "Smoker" (IntCol [0; 1; 0]%Z)].

Definition ex_sites : DataFrame :=
  [Column "Site" (ObjCol [Some "north"; Some "south"; Some "north"]);
   Column "Hospital_Code" (IntCol [3; 4; 3]%Z);
   Column "Diagnosis" (IntCol [1; 0; 1]%Z)].

Definition ex_nan : DataFrame :=
  [Column "BMI" (FloatCol [Some 22; None; Some 30; Some 28]%Q);
   Column "Age" (IntCol [70; 61; 83; 77]%Z)].

Definition ex_copy : DataFrame :=
  [Column "Age" (IntCol [70; 61; 83; 77]%Z);
   Column "Leak" (IntCol ex_mixed_y);
   Column "Diagnosis" (IntCol ex_mixed_y)].

Definition ex_clinical : DataFrame :=
  [Column "PatientID" (IntCol [4751; 4752; 4753]%Z);
   Column "Age" (IntCol [70; 61; 83]%Z);
   Column "MMSE" (FloatCol [Some 21; Some 28; Some 12]%Q);
   Column "Gender" (ObjCol [Some "M"; Some "F"; Some "F"]);
   Column "Diagnosis" (IntCol [1; 0; 1]%Z)].

(** An estimator with one value per column, and a reader of integers
    that accepts no text. *)
Definition ex_mutual_info (X : DataFrame) (y : list Z) : list Q :=
  map (fun _ => (1 # 10)%Q) X.

Definition ex_int_of_text (t : string) : option Z := None.

(** Labels with both classes in every round robin fold, and a model that
    predicts the feature value itself. *)
Definition ex_labels2 : list Z := [1; 0; 1; 0; 0; 0; 1; 0; 1; 1; 1; 0]%Z.

Definition ex_predict_proba (m : list Z * list Z) (Xte : list Z) : list Q :=
  map inject_Z Xte.

(** A run of the nested cross-validation on the example rows. *)
Definition ex_nested : result (nested_summary unit) :=
  nested_cv_scores Z unit unit unit (list Z * list Z)
    ex_make_test_folds ex_search_fit (fun _ => tt) (fun _ => (1 # 2)%Q)
    ex_predict_proba tt tt ex_X ex_labels2.

(** * Properties *)

(** ** Target detection *)

Lemma mem_In (n : string) (l : list string) : Str.mem n l = true <-> In n l.
Proof.
  unfold Str.mem. rewrite existsb_exists. split.
  - intros [x [Hx He]]. apply String.eqb_eq in He. now subst.
  - intros H. exists n. split; [assumption | apply String.eqb_refl].
Qed.

Lemma binary_candidates_filter (df : DataFrame) :
  binary_candidates df = map name (List.filter is_binary_column df).
Proof.
  induction df as [| c df IH]; simpl; [reflexivity |].
  destruct (is_binary_column c); simpl; now rewrite IH.
Qed.

(** Inserting labels never creates a key that no label lowers to. *)
Lemma lower_cols_fold_None (h : string) (cols : list string)
    (m : gmap string string) :
  m !! h = None ->
  (forall c, In c cols -> Str.lower c <> h) ->
  fold_left (fun m c => <[Str.lower c := c]> m) cols m !! h = None.
Proof.
  revert m. induction cols as [| c cols IH]; intros m Hm Hc; simpl.
  - exact Hm.
  - apply IH.
    + rewrite lookup_insert_ne; [exact Hm |]. apply Hc. now left.
    + intros c' Hc'. apply Hc. now right.
Qed.

Lemma first_hint_None (hints : list string) (m : gmap string string) :
  (forall h, In h hints -> m !! h = None) -> first_hint hints m = None.
Proof.
  induction hints as [| h hints IH]; intros H; simpl; [reflexivity |].
  rewrite (H h) by now left. apply IH. intros h' Hh'. apply H. now right.
Qed.

Lemma first_preferred_None (names : list string) (df : DataFrame) :
  (forall n, In n names -> ~ In n (columns df)) ->
  first_preferred names df = None.
Proof.
  induction names as [| n names IH]; intros H; simpl; [reflexivity |].
  destruct (Str.mem n (columns df)) eqn:E.
  - apply mem_In in E. exfalso. apply (H n); [now left | exact E].
  - apply IH. intros n' Hn'. apply H. now right.
Qed.

(** C9: a dataset with a column labelled [Diagnosis] resolves to that
    column, whatever other binary-valued or hint-matching columns it has;
    no error is raised. *)
Theorem detect_target_prefers_Diagnosis (df : DataFrame) :
  In "Diagnosis" (columns df) -> detect_target df = Ok "Diagnosis".
Proof.
  intros H. unfold detect_target, TARGET_PREFERRED. simpl.
  apply mem_In in H. now rewrite H.
Qed.

Lemma detect_target_prefers_Diagnosis_witness :
  In "Diagnosis" (columns ex_preferred) /\
  detect_target ex_preferred = Ok "Diagnosis".
Proof.
  assert (H : In "Diagnosis" (columns ex_preferred)) by (simpl; tauto).
  split; [exact H | exact (detect_target_prefers_Diagnosis ex_preferred H)].
Defined.

(** C2: when no label is a preferred name, no lowercased label is a hint
    word, and exactly two columns [ca] and [cb] pass the binary test,
    target detection raises, returns no target, and the message lists
    exactly [ca] and [cb]. *)
Theorem detect_target_two_binary_ambiguous (df : DataFrame) (ca cb : column) :
  (forall n, In n TARGET_PREFERRED -> ~ In n (columns df)) ->
  (forall c, In c (columns df) -> ~ In (Str.lower c) TARGET_CANDIDATE_HINTS) ->
  List.filter is_binary_column df = [ca; cb] ->
  detect_target df =
    ValueError
      ("Unable to uniquely determine target column. Candidates: "
       ++ (name ca ++ ", " ++ name cb)
       ++ ". Please rename your target to 'Diagnosis' or pass explicitly.").
Proof.
  intros Hp Hh Hb. unfold detect_target.
  rewrite (first_preferred_None _ _ Hp).
  rewrite first_hint_None.
  - rewrite binary_candidates_filter, Hb. simpl.
    unfold ambiguous_msg, Str.join. simpl. reflexivity.
  - intros h Hin. unfold lower_cols. apply lower_cols_fold_None.
    + apply lookup_empty.
    + intros c Hc E. apply (Hh c Hc). now rewrite E.
Qed.

Lemma detect_target_two_binary_ambiguous_witness :
  detect_target ex_two_binary =
    ValueError
      "Unable to uniquely determine target column. Candidates: Smoker, Hypertension. Please rename your target to 'Diagnosis' or pass explicitly.".
Proof.
  apply (detect_target_two_binary_ambiguous ex_two_binary
           (Column "Smoker" (IntCol [0; 1; 0]%Z))
           (Column "Hypertension" (BoolCol [true; false; true]))).
  - intros n Hn Hc. simpl in Hn, Hc.
    destruct Hn as [<- | [<- | []]];
      repeat (destruct Hc as [Hc | Hc]; [discriminate Hc |]); exact Hc.
  - intros c Hc Hh. simpl in Hc.
    repeat (destruct Hc as [<- | Hc];
            [simpl in Hh;
             repeat (destruct Hh as [Hh | Hh]; [discriminate Hh |]); exact Hh |]).
    exact Hc.
  - reflexivity.
Defined.

(** A hint is found when a lowercased label is the hint itself. *)
Lemma detect_target_exact_hint :
  detect_target [Column "Smoker" (IntCol [0; 1]%Z);
                 Column "OUTCOME" (IntCol [1; 0]%Z)] = Ok "OUTCOME".
Proof. reflexivity. Qed.

(** C3: the label [Outcome_Flag] contains the hint word [outcome] and no
    label is a preferred name, yet the hint loop finds nothing: detection
    falls through to the binary fallback, which sees two candidates and
    raises. *)
Theorem detect_target_misses_hint_substring :
  ~ In "Diagnosis" (columns ex_hint_substring) /\
  ~ In "diagnosis" (columns ex_hint_substring) /\
  Str.contains "outcome" (Str.lower "Outcome_Flag") = true /\
  first_hint TARGET_CANDIDATE_HINTS (lower_cols ex_hint_substring) = None /\
  binary_candidates ex_hint_substring = ["Outcome_Flag"; "Smoker"] /\
  detect_target ex_hint_substring =
    ValueError
      "Unable to uniquely determine target column. Candidates: Outcome_Flag, Smoker. Please rename your target to 'Diagnosis' or pass explicitly.".
Proof.
  repeat split; try reflexivity.
  - simpl. intros [H | [H | []]]; discriminate H.
  - simpl. intros [H | [H | []]]; discriminate H.
Qed.

(** ** Temporal column selection *)

Section DateColumnFacts.

Variable to_datetime_ok : series -> bool.

(** The loop returns the first candidate that passes either probe. *)
Lemma date_loop_find (df : DataFrame) (candidates : list string) :
  date_loop to_datetime_ok df candidates =
  find (fun c => parses to_datetime_ok df c || integer_typed df c)
       candidates.
Proof.
  induction candidates as [| c rest IH]; simpl; [reflexivity |].
  unfold parses, integer_typed.
  destruct (getitem df c) as [s |]; simpl.
  - destruct (to_datetime_ok s); simpl; [reflexivity |].
    destruct (is_integer_dtype s); [reflexivity | exact IH].
  - exact IH.
Qed.

(** C7, as the code has it: one pass over the name-matched candidates
    returns the first whose values parse as dates or are integer-typed;
    when no candidate passes either probe the first candidate is
    returned unvalidated, and [None] when there is no candidate. *)
Theorem get_date_column_single_pass (df : DataFrame) :
  get_date_column to_datetime_ok df =
  let candidates := find_columns_by_tokens df DATE_TOKENS in
  match find (fun c => parses to_datetime_ok df c || integer_typed df c)
             candidates with
  | Some c => Some c
  | None => hd_error candidates
  end.
Proof.
  unfold get_date_column. simpl. now rewrite date_loop_find.
Qed.

End DateColumnFacts.

(** C7, as stated, fails: an integer-typed candidate that does not parse
    stands before a candidate that parses, and is the one returned. *)
Lemma get_date_column_not_three_tier :
  get_date_column ex_to_datetime_ok ex_dates = Some "date_code" /\
  three_tier_date_column ex_to_datetime_ok ex_dates = Some "visit_date" /\
  ~ (forall f df, get_date_column f df = three_tier_date_column f df).
Proof.
  assert (H1 : get_date_column ex_to_datetime_ok ex_dates = Some "date_code")
    by reflexivity.
  assert (H2 : three_tier_date_column ex_to_datetime_ok ex_dates
               = Some "visit_date") by reflexivity.
  split; [exact H1 | split; [exact H2 |]].
  intros H. specialize (H ex_to_datetime_ok ex_dates).
  rewrite H1, H2 in H. discriminate H.
Qed.

(** ** Temporal split sizes *)

(** The two constants are the doubles nearest to 7/10 and 85/100. *)
Lemma literals_correctly_rounded :
  F64.div (F64.of_int 7) (F64.of_int 10) = F64.c0_7 /\
  F64.div (F64.of_int 85) (F64.of_int 100) = F64.c0_85.
Proof. split; reflexivity. Qed.

Lemma ex_dated_date_column (f : series -> bool) (n : nat) :
  get_date_column f (ex_dated n) = Some "Date".
Proof.
  unfold get_date_column.
  change (find_columns_by_tokens (ex_dated n) DATE_TOKENS) with ["Date"].
  simpl. destruct (f _); reflexivity.
Qed.

(** With a temporal column, the sizes are differences of the two cut
    points [int(0.7 * n)] and [int(0.85 * n)]. *)
Lemma temporal_sizes_shape (f : series -> bool) (df : DataFrame)
    (target date_col : string) :
  get_date_column f df = Some date_col ->
  temporal (temporal_site_validation f df target) =
    let n := Z.of_nat (n_rows df) in
    TemporalSizes date_col
      [("train", tr_end n);
       ("val", (val_end n - tr_end n)%Z);
       ("test", (n - val_end n)%Z)].
Proof.
  intros H. unfold temporal_site_validation. rewrite H. simpl.
  now rewrite Z.sub_0_r.
Qed.

(** Without a temporal column the split is skipped. *)
Lemma temporal_skipped (f : series -> bool) (df : DataFrame) (target : string) :
  get_date_column f df = None ->
  temporal (temporal_site_validation f df target) =
    TemporalMessage "No date/year column detected; temporal split skipped.".
Proof.
  intros H. unfold temporal_site_validation. now rewrite H.
Qed.

Lemma temporal_skipped_example (f : series -> bool) :
  temporal (temporal_site_validation f ex_undated "Diagnosis") =
    TemporalMessage "No date/year column detected; temporal split skipped.".
Proof. apply temporal_skipped. reflexivity. Qed.

(** On 500 rows the sizes are 350, 75 and 75. *)
Lemma temporal_sizes_500_rows (f : series -> bool) :
  temporal (temporal_site_validation f (ex_dated 500) "Diagnosis") =
    TemporalSizes "Date" [("train", 350%Z); ("val", 75%Z); ("test", 75%Z)].
Proof.
  rewrite (temporal_sizes_shape f _ _ "Date")
    by apply ex_dated_date_column.
  vm_compute. reflexivity.
Qed.

(** The first cut point is not always the integer part of seven tenths of
    the row count: it is one short at 90, 170, 180, ... *)
Lemma tr_end_short :
  List.filter (fun n => negb (tr_end n =? 7 * n / 10)%Z)
              (map Z.of_nat (seq 0 400))
  = [90; 170; 180; 330; 340; 350; 360]%Z.
Proof. vm_compute. reflexivity. Qed.

(** C8: on 90 rows with a temporal column the reported sizes are 62, 14
    and 14, since [0.7 * 90] is [62.99999999999999] in binary64, whereas
    the integer part of 0.7 * 90 is 63. *)
Theorem temporal_sizes_90_rows (f : series -> bool) :
  n_rows (ex_dated 90) = 90%nat /\
  temporal (temporal_site_validation f (ex_dated 90) "Diagnosis") =
    TemporalSizes "Date" [("train", 62%Z); ("val", 14%Z); ("test", 14%Z)] /\
  (7 * 90 / 10 = 63)%Z /\
  (85 * 90 / 100 - 7 * 90 / 10 = 13)%Z.
Proof.
  split; [reflexivity |]. split; [| split; reflexivity].
  rewrite (temporal_sizes_shape f _ _ "Date")
    by apply ex_dated_date_column.
  vm_compute. reflexivity.
Qed.

(** ** Bounds of the discriminative score *)

Section ScoreFacts.

Local Open Scope Q_scope.

Lemma rank_credit_bounds (p n : Q) : 0 <= rank_credit p n <= 1.
Proof.
  unfold rank_credit. destruct (p ?= n); split; lra.
Qed.

Lemma sumQ_bounds (l : list Q) :
  (forall x, In x l -> 0 <= x <= 1) ->
  0 <= sumQ l <= inject_Z (Z.of_nat (List.length l)).
Proof.
  induction l as [| x l IH]; intros H.
  - split; unfold Qle; simpl; lia.
  - assert (Hx : 0 <= x <= 1) by (apply H; now left).
    assert (Hl : 0 <= sumQ l <= inject_Z (Z.of_nat (List.length l))).
    { apply IH. intros z Hz. apply H. now right. }
    change (sumQ (x :: l)) with (x + sumQ l).
    change (List.length (x :: l)) with (S (List.length l)).
    rewrite Nat2Z.inj_succ. unfold Z.succ. rewrite inject_Z_plus.
    change (inject_Z 1) with 1. lra.
Qed.

Lemma sumQ_scaled_bounds (l : list Q) (b : Q) :
  0 <= b ->
  (forall x, In x l -> 0 <= x <= b) ->
  0 <= sumQ l <= inject_Z (Z.of_nat (List.length l)) * b.
Proof.
  intros Hb. induction l as [| x l IH]; intros H.
  - split; unfold Qle; simpl; lia.
  - assert (Hx : 0 <= x <= b) by (apply H; now left).
    assert (Hl : 0 <= sumQ l <= inject_Z (Z.of_nat (List.length l)) * b).
    { apply IH. intros z Hz. apply H. now right. }
    change (sumQ (x :: l)) with (x + sumQ l).
    change (List.length (x :: l)) with (S (List.length l)).
    rewrite Nat2Z.inj_succ. unfold Z.succ. rewrite inject_Z_plus.
    change (inject_Z 1) with 1. lra.
Qed.

Lemma pair_credit_bounds (pos neg : list Q) :
  0 <= pair_credit pos neg <= count_pairs pos neg.
Proof.
  unfold pair_credit, count_pairs.
  rewrite Nat2Z.inj_mul, inject_Z_mult.
  assert (Hn : 0 <= inject_Z (Z.of_nat (List.length neg))).
  { change 0 with (inject_Z 0). rewrite <- Zle_Qle. lia. }
  pose proof (sumQ_scaled_bounds
                (map (fun p => sumQ (map (rank_credit p) neg)) pos)
                (inject_Z (Z.of_nat (List.length neg))) Hn) as H.
  rewrite length_map in H. apply H.
  intros x Hx. apply in_map_iff in Hx. destruct Hx as [p [<- _]].
  pose proof (sumQ_bounds (map (rank_credit p) neg)) as Hs.
  rewrite length_map in Hs. apply Hs.
  intros z Hz. apply in_map_iff in Hz. destruct Hz as [q [<- _]].
  apply rank_credit_bounds.
Qed.

Lemma ratio_bounds (c n : Q) : 0 <= c <= n -> 0 <= c / n <= 1.
Proof.
  intros [Hc Hn].
  destruct (Qeq_dec n 0) as [E | E].
  - assert (Z : c / n == 0).
    { unfold Qdiv. rewrite E. unfold Qinv. simpl. lra. }
    rewrite Z. lra.
  - assert (Hpos : 0 < n) by lra. split.
    + apply Qle_shift_div_l; [exact Hpos | lra].
    + apply Qle_shift_div_r; [exact Hpos | lra].
Qed.

Lemma roc_auc_score_bounds (y : list Z) (xs : list Q) (s : Q) :
  roc_auc_score y xs = Ok s -> 0 <= s <= 1.
Proof.
  unfold roc_auc_score.
  destruct (negb _); [discriminate |].
  destruct (np_unique y) as [| a [| b [| c l]]]; try discriminate.
  intros H. injection H as <-. apply ratio_bounds, pair_credit_bounds.
Qed.

Lemma feature_score_bounds (y : list Z) (x : series) (s : Q) :
  feature_score y x = Ok s -> 0 <= s <= 1.
Proof.
  unfold feature_score. destruct (is_numeric_dtype x).
  - destruct (numeric_scores x); [apply roc_auc_score_bounds | discriminate].
  - apply roc_auc_score_bounds.
Qed.

Lemma chance_distance_lower (s : Q) : 1 # 2 <= chance_distance s.
Proof.
  unfold chance_distance.
  apply Q.max_case_strong; intros; lra.
Qed.

Lemma chance_distance_upper (s : Q) : 0 <= s <= 1 -> chance_distance s <= 1.
Proof.
  intros H. unfold chance_distance.
  apply Q.max_case_strong; intros; lra.
Qed.

(** Every score recorded by the loop satisfies the bounds. *)
Lemma score_column_bounds (y : list Z) (aucs : gmap string Q) (c : column) :
  (forall k a, aucs !! k = Some a -> 1 # 2 <= a <= 1) ->
  forall k a, score_column y aucs c !! k = Some a -> 1 # 2 <= a <= 1.
Proof.
  intros Hinv k a. unfold score_column.
  destruct (feature_score y (data c)) as [s | msg] eqn:E; [| apply Hinv].
  destruct (decide (name c = k)) as [-> | Hne].
  - rewrite lookup_insert_eq. intros H. injection H as <-.
    split; [apply chance_distance_lower |].
    apply chance_distance_upper. eapply feature_score_bounds, E.
  - rewrite lookup_insert_ne by exact Hne. apply Hinv.
Qed.

Lemma fold_score_bounds (y : list Z) (df : DataFrame) (aucs : gmap string Q) :
  (forall k a, aucs !! k = Some a -> 1 # 2 <= a <= 1) ->
  forall k a, fold_left (score_column y) df aucs !! k = Some a ->
              1 # 2 <= a <= 1.
Proof.
  revert aucs. induction df as [| c df IH]; intros aucs Hinv; simpl.
  - exact Hinv.
  - apply IH. now apply score_column_bounds.
Qed.



Lemma single_feature_auc_positive (df : DataFrame) (y : list Z)
    (c : string) (a : Q) :
  single_feature_auc df y !! c = Some a -> 0 < a.
Proof.
  intros H.
  assert (B : 1 # 2 <= a <= 1).
  { apply (fold_score_bounds y df ∅) with (k := c); [| exact H].
    intros k b E. rewrite lookup_empty in E. discriminate E. }
  lra.
Qed.

(** ** Symmetry of the folded score under complementation *)

Lemma rank_credit_compl (p p' n n' : Q) :
  compl p p' -> compl n n' -> rank_credit p' n' == 1 - rank_credit p n.
Proof.
  unfold compl, rank_credit. intros Hp Hn.
  destruct (Qcompare_spec p n), (Qcompare_spec p' n'); lra.
Qed.

Lemma sum_credit_compl (p p' : Q) (neg neg' : list Q) :
  compl p p' -> Forall2 compl neg neg' ->
  sumQ (map (rank_credit p') neg')
  == inject_Z (Z.of_nat (List.length neg)) - sumQ (map (rank_credit p) neg).
Proof.
  intros Hp H. induction H as [| n n' neg neg' Hn _ IH].
  - reflexivity.
  - change (sumQ (map (rank_credit p') (n' :: neg')))
      with (rank_credit p' n' + sumQ (map (rank_credit p') neg')).
    change (sumQ (map (rank_credit p) (n :: neg)))
      with (rank_credit p n + sumQ (map (rank_credit p) neg)).
    change (List.length (n :: neg)) with (S (List.length neg)).
    rewrite Nat2Z.inj_succ. unfold Z.succ. rewrite inject_Z_plus.
    change (inject_Z 1) with 1.
    rewrite IH, (rank_credit_compl p p' n n' Hp Hn). lra.
Qed.

Lemma pair_credit_compl (pos pos' neg neg' : list Q) :
  Forall2 compl pos pos' -> Forall2 compl neg neg' ->
  pair_credit pos' neg' == count_pairs pos neg - pair_credit pos neg.
Proof.
  intros Hpos Hneg. unfold pair_credit, count_pairs.
  induction Hpos as [| p p' pos pos' Hp _ IH].
  - reflexivity.
  - change (sumQ (map (fun p0 => sumQ (map (rank_credit p0) neg')) (p' :: pos')))
      with (sumQ (map (rank_credit p') neg')
            + sumQ (map (fun p0 => sumQ (map (rank_credit p0) neg')) pos')).
    change (sumQ (map (fun p0 => sumQ (map (rank_credit p0) neg)) (p :: pos)))
      with (sumQ (map (rank_credit p) neg)
            + sumQ (map (fun p0 => sumQ (map (rank_credit p0) neg)) pos)).
    rewrite IH, (sum_credit_compl p p' neg neg' Hp Hneg).
    change (List.length (p :: pos) * List.length neg)%nat
      with (List.length neg + List.length pos * List.length neg)%nat.
    rewrite Nat2Z.inj_add, inject_Z_plus. lra.
Qed.

Lemma count_pairs_compl (pos pos' neg neg' : list Q) :
  Forall2 compl pos pos' -> Forall2 compl neg neg' ->
  count_pairs pos' neg' = count_pairs pos neg.
Proof.
  intros Hp Hn. unfold count_pairs.
  now rewrite <- (Forall2_length _ _ _ Hp), <- (Forall2_length _ _ _ Hn).
Qed.

Lemma scores_of_compl (label : Z) (y : list Z) (xs xs' : list Q) :
  Forall2 compl xs xs' ->
  Forall2 compl (scores_of label y xs) (scores_of label y xs').
Proof.
  intros H. revert y. unfold scores_of.
  induction H as [| x x' xs xs' Hx _ IH]; intros y.
  - destruct y; constructor.
  - destruct y as [| l y]; simpl; [constructor |].
    destruct (l =? label)%Z; simpl; [constructor; [exact Hx |] |]; apply IH.
Qed.

Lemma chance_distance_compl (s s' : Q) :
  compl s s' -> chance_distance s' == chance_distance s.
Proof.
  unfold compl, chance_distance. intros H.
  apply Q.max_case_strong; apply Q.max_case_strong; intros; lra.
Qed.

Lemma chance_distance_eq (s s' : Q) :
  s == s' -> chance_distance s == chance_distance s'.
Proof.
  unfold chance_distance. intros H.
  apply Q.max_case_strong; apply Q.max_case_strong; intros; lra.
Qed.

Lemma roc_auc_score_compl (y : list Z) (xs xs' : list Q) (s : Q) :
  Forall2 compl xs xs' ->
  roc_auc_score y xs = Ok s ->
  exists s', roc_auc_score y xs' = Ok s' /\
             chance_distance s' == chance_distance s.
Proof.
  intros H. unfold roc_auc_score.
  rewrite <- (Forall2_length _ _ _ H).
  destruct (negb _); [discriminate |].
  destruct (np_unique y) as [| a [| b [| c l]]]; try discriminate.
  intros E. injection E as <-.
  eexists. split; [reflexivity |].
  pose proof (scores_of_compl b y xs xs' H) as Hpos.
  pose proof (scores_of_compl a y xs xs' H) as Hneg.
  set (pos := scores_of b y xs) in *. set (neg := scores_of a y xs) in *.
  set (pos' := scores_of b y xs') in *. set (neg' := scores_of a y xs') in *.
  rewrite (count_pairs_compl _ _ _ _ Hpos Hneg).
  pose proof (pair_credit_compl _ _ _ _ Hpos Hneg) as Hc.
  pose proof (pair_credit_bounds pos neg) as Hb.
  destruct (Qeq_dec (count_pairs pos neg) 0) as [Z | NZ].
  - assert (E1 : pair_credit pos neg == 0) by lra.
    assert (E2 : pair_credit pos' neg' == 0) by lra.
    apply chance_distance_eq. unfold Qdiv. rewrite E1, E2. reflexivity.
  - apply chance_distance_compl. unfold compl.
    rewrite Hc. field. exact NZ.
Qed.

Lemma all_present_compl (v : list (option Q)) (xs : list Q) :
  all_present v = Some xs ->
  exists xs',
    all_present (map (fun o => match o with
                               | Some q => Some (1 - q)
                               | None => None
                               end) v) = Some xs' /\
    Forall2 compl xs xs'.
Proof.
  revert xs. induction v as [| o v IH]; intros xs H; simpl in *.
  - injection H as <-. exists []. split; [reflexivity | constructor].
  - destruct o as [q |]; [| discriminate].
    destruct (all_present v) as [l |] eqn:E; [| discriminate].
    injection H as <-.
    destruct (IH l eq_refl) as [l' [-> Hl]].
    exists ((1 - q) :: l'). split; [reflexivity |].
    constructor; [unfold compl; reflexivity | exact Hl].
Qed.

Lemma numeric_scores_compl (x : series) (xs : list Q) :
  numeric_scores x = Some xs ->
  exists xs', numeric_scores (complement x) = Some xs' /\ Forall2 compl xs xs'.
Proof.
  destruct x as [v | v | v | v]; simpl; intros H.
  - injection H as <-. eexists. split; [reflexivity |].
    induction v as [| z v IH]; simpl; constructor; [| exact IH].
    unfold compl, Z.sub. rewrite inject_Z_plus, inject_Z_opp.
    change (inject_Z 1) with 1. lra.
  - now apply all_present_compl.
  - injection H as <-. eexists. split; [reflexivity |].
    induction v as [| b v IH]; simpl; constructor; [| exact IH].
    unfold compl. destruct b; simpl; lra.
  - discriminate.
Qed.

Lemma complement_numeric (x : series) :
  is_numeric_dtype (complement x) = is_numeric_dtype x.
Proof. destruct x; reflexivity. Qed.

Lemma feature_score_compl (y : list Z) (x : series) (s : Q) :
  is_numeric_dtype x = true ->
  feature_score y x = Ok s ->
  exists s', feature_score y (complement x) = Ok s' /\
             chance_distance s' == chance_distance s.
Proof.
  intros Hnum. unfold feature_score. rewrite complement_numeric, Hnum.
  destruct (numeric_scores x) as [xs |] eqn:E; [| discriminate].
  destruct (numeric_scores_compl x xs E) as [xs' [-> Hxs]].
  now apply roc_auc_score_compl.
Qed.

Lemma single_column_auc (c : string) (x : series) (y : list Z) :
  single_feature_auc [Column c x] y !! c =
  match feature_score y x with
  | Ok s => Some (chance_distance s)
  | ValueError _ => None
  end.
Proof.
  unfold single_feature_auc, score_column. simpl.
  destruct (feature_score y x).
  - apply lookup_insert_eq.
  - apply lookup_empty.
Qed.



End ScoreFacts.

(** ** Ordering of the top suspicious list *)

Section OrderingFacts.

Local Open Scope Q_scope.

Lemma key_lt_true (a b : suspicious_entry) : key_lt a b = true -> key_le a b.
Proof.
  unfold key_lt, key_le.
  destruct (Qeq_bool _ _) eqn:E.
  - apply Qeq_bool_iff in E. intros H. right. split; [exact E |].
    apply negb_true_iff in H.
    destruct (Qlt_le_dec (key_part (mutual_info a)) (key_part (mutual_info b)))
      as [L | L]; [lra |].
    apply Qle_bool_iff in L. congruence.
  - intros H. left. apply negb_true_iff in H.
    destruct (Qlt_le_dec (key_part (single_feature_auc_of a))
                         (key_part (single_feature_auc_of b))) as [L | L];
      [exact L |].
    apply Qle_bool_iff in L. congruence.
Qed.

Lemma key_lt_false (a b : suspicious_entry) : key_lt a b = false -> key_le b a.
Proof.
  unfold key_lt, key_le.
  destruct (Qeq_bool _ _) eqn:E.
  - apply Qeq_bool_iff in E. intros H. right. split; [lra |].
    apply negb_false_iff, Qle_bool_iff in H. exact H.
  - intros H. apply negb_false_iff, Qle_bool_iff in H.
    apply Qeq_bool_neq in E. left. lra.
Qed.

Lemma key_le_trans (a b c : suspicious_entry) :
  key_le a b -> key_le b c -> key_le a c.
Proof. unfold key_le. intros [H1 | [H1 H1']] [H2 | [H2 H2']]; lra. Qed.

Lemma insert_entry_In (x e : suspicious_entry) (l : list suspicious_entry) :
  In e (insert_entry x l) -> e = x \/ In e l.
Proof.
  induction l as [| d l IH]; simpl.
  - intros [<- | []]. now left.
  - destruct (key_lt d x); simpl.
    + intros [<- | H]; [right; now left |].
      destruct (IH H) as [-> | H']; [now left | right; now right].
    + intros [<- | H]; [now left | now right].
Qed.

Lemma insert_entry_sorted (x : suspicious_entry) (l : list suspicious_entry) :
  StronglySorted key_le l -> StronglySorted key_le (insert_entry x l).
Proof.
  induction l as [| d l IH]; intros Hs; simpl.
  - constructor; constructor.
  - inversion Hs as [| d' l' Hl Hd]; subst.
    destruct (key_lt d x) eqn:E.
    + constructor; [apply IH, Hl |].
      apply List.Forall_forall. intros e He.
      destruct (insert_entry_In _ _ _ He) as [-> | He'].
      * now apply key_lt_true.
      * rewrite List.Forall_forall in Hd. now apply Hd.
    + constructor; [exact Hs |].
      pose proof (key_lt_false _ _ E) as Hx.
      constructor; [exact Hx |].
      apply List.Forall_forall. intros e He.
      rewrite List.Forall_forall in Hd.
      apply key_le_trans with d; [exact Hx | now apply Hd].
Qed.

Lemma sorted_entries_sorted (l : list suspicious_entry) :
  StronglySorted key_le (sorted_entries l).
Proof.
  induction l as [| x l IH]; simpl; [constructor |].
  now apply insert_entry_sorted.
Qed.

Lemma sorted_entries_In (e : suspicious_entry) (l : list suspicious_entry) :
  In e (sorted_entries l) -> In e l.
Proof.
  induction l as [| x l IH]; simpl; [tauto |].
  intros H. destruct (insert_entry_In _ _ _ H) as [-> | H'];
    [now left | right; now apply IH].
Qed.

Lemma insert_entry_length (x : suspicious_entry) (l : list suspicious_entry) :
  List.length (insert_entry x l) = S (List.length l).
Proof.
  induction l as [| d l IH]; simpl; [reflexivity |].
  destruct (key_lt d x); simpl; [now rewrite IH | reflexivity].
Qed.

Lemma sorted_entries_length (l : list suspicious_entry) :
  List.length (sorted_entries l) = List.length l.
Proof.
  induction l as [| x l IH]; simpl; [reflexivity |].
  now rewrite insert_entry_length, IH.
Qed.

Lemma firstn_subset {A : Type} (n : nat) (l : list A) (e : A) :
  In e (firstn n l) -> In e l.
Proof.
  intros H. rewrite <- (firstn_skipn n l). apply in_or_app. now left.
Qed.

Lemma StronglySorted_firstn {A : Type} (R : A -> A -> Prop) (n : nat)
    (l : list A) :
  StronglySorted R l -> StronglySorted R (firstn n l).
Proof.
  revert l. induction n as [| n IH]; intros l Hs; simpl; [constructor |].
  destruct l as [| x l]; [constructor |].
  inversion Hs as [| x' l' Hl Hx]; subst.
  constructor; [apply IH, Hl |].
  apply List.Forall_forall. intros e He.
  rewrite List.Forall_forall in Hx. apply Hx.
  eapply firstn_subset, He.
Qed.

Lemma StronglySorted_refine {A : Type} (R R' : A -> A -> Prop) (P : A -> Prop)
    (l : list A) :
  (forall a b, P a -> P b -> R a b -> R' a b) ->
  Forall P l -> StronglySorted R l -> StronglySorted R' l.
Proof.
  intros HR HP Hs. induction Hs as [| x l Hl IH Hx]; [constructor |].
  inversion HP as [| x' l' Px Pl]; subst.
  constructor; [apply IH, Pl |].
  rewrite List.Forall_forall in *. intros e He.
  apply HR; [exact Px | now apply Pl | now apply Hx].
Qed.

Lemma key_le_ranks_before (e1 e2 : suspicious_entry) :
  auc_positive e1 -> auc_positive e2 -> key_le e1 e2 -> ranks_before e1 e2.
Proof.
  unfold auc_positive, key_le, ranks_before, mi_descending.
  destruct (single_feature_auc_of e1) as [a1 |],
           (single_feature_auc_of e2) as [a2 |];
    destruct (mutual_info e1) as [m1 |], (mutual_info e2) as [m2 |];
    simpl; intros P1 P2 [H | [H H']]; try tauto; try lra;
    try (right; split; lra); try (left; lra).
Qed.

End OrderingFacts.

(** ** The leakage report *)

Lemma fold_insert_notin (k : string) (l : list (string * Q))
    (m : gmap string Q) :
  ~ In k (map fst l) ->
  fold_left (fun (m : gmap string Q) (kv : string * Q) =>
               <[fst kv := snd kv]> m) l m !! k = m !! k.
Proof.
  revert m. induction l as [| [k' v] l IH]; intros m H; simpl; [reflexivity |].
  rewrite IH.
  - apply lookup_insert_ne. intros E. apply H. left. exact E.
  - intros Hin. apply H. right. exact Hin.
Qed.

Lemma combine_keys {A B : Type} (ks : list A) (vs : list B) (k : A) :
  In k (map fst (combine ks vs)) -> In k ks.
Proof.
  intros H. apply in_map_iff in H. destruct H as [[k' v] [E Hin]].
  simpl in E. subst k'. eapply in_combine_l, Hin.
Qed.

Section LeakageFacts.

Variable mutual_info_classif : DataFrame -> list Z -> list Q.

Lemma mutual_info_scores_keys (X : DataFrame) (y : list Z) (c : string) :
  ~ In c (columns (encode X)) ->
  mutual_info_scores mutual_info_classif X y !! c = None.
Proof.
  intros H. unfold mutual_info_scores.
  rewrite fold_insert_notin; [apply lookup_empty |].
  intros Hin. apply H. eapply combine_keys, Hin.
Qed.

Lemma suspicious_entries (df : DataFrame) (target : string) (y : list Z)
    (e : suspicious_entry) :
  In e (top_suspicious mutual_info_classif df target y) ->
  single_feature_auc_of e
    = single_feature_auc (drop_column target df) y !! feature e /\
  mutual_info e
    = mutual_info_scores mutual_info_classif (drop_column target df) y
        !! feature e.
Proof.
  unfold top_suspicious, suspicious. intros H.
  apply firstn_subset, sorted_entries_In, in_map_iff in H.
  destruct H as [c [<- _]]. simpl. split; reflexivity.
Qed.


(** C4: the mutual-information scores of a categorical column are keyed
    by the labels of its indicator columns, so the lookup by the
    original label finds nothing: the entry of [Gender], whose
    discriminative score is present, carries no mutual information,
    whatever the estimator returns. *)
Theorem categorical_mutual_info_missing :
  columns (encode (drop_column "Diagnosis" ex_mixed))
    = ["Age"; "Gender_F"; "Gender_M"; "Gender_nan"] /\
  (exists a,
     single_feature_auc (drop_column "Diagnosis" ex_mixed) ex_mixed_y
       !! "Gender" = Some a /\ (a == 1 # 2)%Q) /\
  mutual_info_scores mutual_info_classif
    (drop_column "Diagnosis" ex_mixed) ex_mixed_y !! "Gender" = None /\
  forall e,
    In e (top_suspicious mutual_info_classif ex_mixed "Diagnosis" ex_mixed_y) ->
    feature e = "Gender" -> mutual_info e = None.
Proof.
  assert (K : columns (encode (drop_column "Diagnosis" ex_mixed))
              = ["Age"; "Gender_F"; "Gender_M"; "Gender_nan"]) by reflexivity.
  assert (M : mutual_info_scores mutual_info_classif
                (drop_column "Diagnosis" ex_mixed) ex_mixed_y !! "Gender"
              = None).
  { apply mutual_info_scores_keys. rewrite K. simpl.
    intros [H | [H | [H | [H | []]]]]; discriminate H. }
  split; [exact K | split; [| split; [exact M |]]].
  - exists (32 # 64)%Q. split; [vm_compute |]; reflexivity.
  - intros e He Hf. destruct (suspicious_entries _ _ _ _ He) as [_ Hm].
    rewrite Hm, Hf. exact M.
Qed.

End LeakageFacts.

(** ** Outer folds of the nested cross-validation *)

Lemma filter_split_perm {A : Type} (p q r : A -> bool) (l : list A) :
  (forall a, r a = p a || q a) ->
  (forall a, p a = true -> q a = false) ->
  Permutation (List.filter p l ++ List.filter q l) (List.filter r l).
Proof.
  intros Hr Hd. induction l as [| a l IH]; simpl; [constructor |].
  rewrite Hr. destruct (p a) eqn:Ep; simpl.
  - rewrite (Hd a Ep). now constructor.
  - destruct (q a); simpl; [| exact IH].
    apply Permutation_sym, Permutation_cons_app, Permutation_sym, IH.
Qed.

Lemma filter_all {A : Type} (p : A -> bool) (l : list A) :
  (forall a, In a l -> p a = true) -> List.filter p l = l.
Proof.
  induction l as [| a l IH]; intros H; simpl; [reflexivity |].
  rewrite (H a) by now left. f_equal. apply IH. intros b Hb. apply H. now right.
Qed.

Lemma iloc_agree {A : Type} (l l' : list A) (idx : list nat) :
  (forall j, In j idx -> nth_error l' j = nth_error l j) ->
  iloc l' idx = iloc l idx.
Proof.
  unfold iloc. induction idx as [| i idx IH]; intros H; simpl; [reflexivity |].
  rewrite (H i) by now left. f_equal. apply IH. intros j Hj. apply H. now right.
Qed.

Lemma filter_none {A : Type} (p : A -> bool) (l : list A) :
  (forall a, p a = false) -> List.filter p l = [].
Proof.
  intros H. induction l as [| a l IH]; simpl; [reflexivity |].
  now rewrite H.
Qed.

(** The test rows of the folds below [k] are the rows assigned below [k]. *)
Lemma test_rows_below (k : nat) (tf : list nat) (indices : list nat) :
  Permutation
    (concat (map (fun i => List.filter (fun j => (nth j tf 0 =? i)%nat) indices)
                 (seq 0 k)))
    (List.filter (fun j => (nth j tf 0 <? k)%nat) indices).
Proof.
  induction k as [| k IH].
  - simpl. rewrite filter_none; [constructor | reflexivity].
  - rewrite seq_S, map_app, concat_app. simpl. rewrite app_nil_r.
    etransitivity; [apply Permutation_app_tail, IH |].
    apply filter_split_perm.
    + intros j. destruct (Nat.ltb_spec (nth j tf 0) (S k)),
        (Nat.ltb_spec (nth j tf 0) k), (Nat.eqb_spec (nth j tf 0) k);
        simpl; try reflexivity; lia.
    + intros j Hj. apply Nat.ltb_lt in Hj. apply Nat.eqb_neq. lia.
Qed.

Lemma nth_in_range (tf : list nat) (k j : nat) :
  (0 < k)%nat -> Forall (fun f => (f < k)%nat) tf -> (nth j tf 0 < k)%nat.
Proof.
  intros Hk H. destruct (Nat.lt_ge_cases j (List.length tf)) as [L | G].
  - rewrite List.Forall_forall in H. apply H, nth_In, L.
  - now rewrite nth_overflow.
Qed.

Section NestedCVFacts.

Variables row model grid fitted : Type.
Variable make_test_folds : nat -> list Z -> list nat.
Variable search_fit : model -> grid -> list row -> list Z -> fitted.

Lemma split_folds (n_splits : nat) (X : list row) (y : list Z)
    (tr te : list nat) :
  In (tr, te) (split make_test_folds n_splits X y) ->
  exists i,
    tr = List.filter
           (fun j => negb (nth j (make_test_folds n_splits y) 0 =? i)%nat)
           (seq 0 (List.length X)) /\
    te = List.filter
           (fun j => (nth j (make_test_folds n_splits y) 0 =? i)%nat)
           (seq 0 (List.length X)).
Proof.
  unfold split. intros H. apply in_map_iff in H.
  destruct H as [i [E _]]. exists i. now inversion E.
Qed.


End NestedCVFacts.


(** * Further properties *)

(** ** Token based column roles *)

Lemma fromkeys_In (c : string) (seen l : list string) :
  In c (fromkeys seen l) <-> In c l /\ ~ In c seen.
Proof.
  revert seen. induction l as [| d l IH]; intros seen; simpl.
  - tauto.
  - destruct (Str.mem d seen) eqn:E.
    + apply mem_In in E. rewrite IH. split.
      * intros [H1 H2]. tauto.
      * intros [[-> | H1] H2]; [contradiction | tauto].
    + assert (Hd : ~ In d seen).
      { intros H. apply mem_In in H. congruence. }
      simpl. rewrite IH. simpl. split.
      * intros [<- | [H1 H2]]; [tauto |]. split; [tauto |].
        intros H. apply H2. now right.
      * intros [[<- | H1] H2]; [now left |].
        destruct (String.eqb_spec d c) as [-> | Hne]; [now left |].
        right. split; [exact H1 |]. intros [H | H]; [congruence | tauto].
Qed.

Lemma fromkeys_NoDup (seen l : list string) : List.NoDup (fromkeys seen l).
Proof.
  revert seen. induction l as [| d l IH]; intros seen; simpl.
  - constructor.
  - destruct (Str.mem d seen); [apply IH |].
    constructor; [| apply IH].
    rewrite fromkeys_In. intros [_ H]. apply H. now left.
Qed.

Lemma insert_label_perm (c : string) (l : list string) :
  Permutation (insert_label c l) (c :: l).
Proof.
  induction l as [| d l IH]; simpl; [reflexivity |].
  destruct (String.ltb d c); [| reflexivity].
  etransitivity; [apply perm_skip, IH | apply perm_swap].
Qed.

Lemma sorted_labels_perm (l : list string) : Permutation (sorted_labels l) l.
Proof.
  induction l as [| c l IH]; simpl; [reflexivity |].
  etransitivity; [apply insert_label_perm | now apply perm_skip].
Qed.

Lemma ltb_leb (a b : string) : String.ltb a b = true -> label_le a b.
Proof.
  unfold String.ltb, label_le, String.leb.
  destruct (String.compare a b); congruence.
Qed.

Lemma not_ltb_leb (a b : string) : String.ltb a b = false -> label_le b a.
Proof.
  unfold String.ltb, label_le, String.leb.
  rewrite (String.compare_antisym a b).
  destruct (String.compare b a); simpl; congruence.
Qed.

Lemma insert_label_sorted (c : string) (l : list string) :
  Sorted label_le l -> Sorted label_le (insert_label c l).
Proof.
  induction l as [| d l IH]; intros Hs; simpl.
  - repeat constructor.
  - inversion Hs as [| d' l' Hl Hd]; subst.
    destruct (String.ltb d c) eqn:E.
    + constructor; [apply IH, Hl |].
      destruct l as [| e l]; simpl.
      * constructor. now apply ltb_leb.
      * destruct (String.ltb e c); constructor;
          [now inversion Hd | now apply ltb_leb].
    + constructor; [exact Hs |]. constructor. now apply not_ltb_leb.
Qed.

Lemma sorted_labels_sorted (l : list string) : Sorted label_le (sorted_labels l).
Proof.
  induction l as [| c l IH]; simpl; [constructor |].
  now apply insert_label_sorted.
Qed.

Lemma find_columns_In (df : DataFrame) (tokens : list string)
    (c : string) :
  In c (find_columns_by_tokens df tokens) <->
  In c (columns df) /\ has_token tokens c = true.
Proof.
  unfold find_columns_by_tokens.
  split.
  - intros H. apply (Permutation_in _ (sorted_labels_perm _)) in H.
    apply fromkeys_In in H. destruct H as [H _].
    now apply filter_In in H.
  - intros H. apply (Permutation_in _ (Permutation_sym (sorted_labels_perm _))).
    apply fromkeys_In. split; [now apply filter_In | intros []].
Qed.

Lemma find_columns_by_tokens_nil (df : DataFrame) (tokens : list string) :
  find_columns_by_tokens df tokens = [] <->
  forall c, In c (columns df) -> has_token tokens c = false.
Proof.
  split.
  - intros E c Hc. destruct (has_token tokens c) eqn:Ht; [| reflexivity].
    assert (H : In c (find_columns_by_tokens df tokens))
      by (apply find_columns_In; tauto).
    rewrite E in H. destruct H.
  - intros H. destruct (find_columns_by_tokens df tokens) as [| c l] eqn:E;
      [reflexivity |].
    assert (Hc : In c (find_columns_by_tokens df tokens))
      by (rewrite E; now left).
    apply find_columns_In in Hc. destruct Hc as [Hc Ht].
    rewrite (H c Hc) in Ht. discriminate Ht.
Qed.

(** ** Order and substrings of labels *)

Lemma ascii_compare_refl (a : ascii) : Ascii.compare a a = Eq.
Proof. unfold Ascii.compare. apply N.compare_refl. Qed.

Lemma ascii_compare_lt_trans (a b c : ascii) :
  Ascii.compare a b = Lt -> Ascii.compare b c = Lt -> Ascii.compare a c = Lt.
Proof.
  unfold Ascii.compare. rewrite !N.compare_lt_iff. apply N.lt_trans.
Qed.

Lemma label_le_trans (a b c : string) :
  label_le a b -> label_le b c -> label_le a c.
Proof.
  unfold label_le, String.leb. revert b c.
  induction a as [| x a IH]; intros [| y b] [| z c]; simpl; try congruence.
  destruct (Ascii.compare x y) eqn:Exy, (Ascii.compare y z) eqn:Eyz;
    try congruence.
  - apply Ascii.compare_eq_iff in Exy, Eyz. subst.
    rewrite ascii_compare_refl. apply IH.
  - apply Ascii.compare_eq_iff in Exy. subst. now rewrite Eyz.
  - apply Ascii.compare_eq_iff in Eyz. subst. now rewrite Exy.
  - now rewrite (ascii_compare_lt_trans x y z Exy Eyz).
Qed.

Lemma label_le_refl (a : string) : label_le a a.
Proof.
  unfold label_le, String.leb. induction a as [| x a IH]; simpl;
    [reflexivity |].
  now rewrite ascii_compare_refl.
Qed.

Lemma sorted_labels_strongly (l : list string) :
  StronglySorted label_le (sorted_labels l).
Proof.
  apply Sorted_StronglySorted; [| apply sorted_labels_sorted].
  intros a b c. apply label_le_trans.
Qed.

(** The first label of a sorted list is below all of them. *)
Lemma hd_error_least (l : list string) (c d : string) :
  StronglySorted label_le l -> hd_error l = Some c -> In d l -> label_le c d.
Proof.
  intros Hs Hh Hd. destruct l as [| x l]; [discriminate |].
  injection Hh as ->. inversion Hs as [| ? ? _ Hall]; subst.
  destruct Hd as [<- | Hd]; [apply label_le_refl |].
  rewrite List.Forall_forall in Hall. now apply Hall.
Qed.

Lemma append_cons (b : ascii) (t post : string) :
  (String b t ++ post)%string = String b (t ++ post)%string.
Proof. reflexivity. Qed.

Lemma append_nil (s : string) : ("" ++ s)%string = s.
Proof. reflexivity. Qed.

Lemma prefix_app (t s : string) :
  String.prefix t s = true <-> exists post, s = (t ++ post)%string.
Proof.
  revert s. induction t as [| a t IH]; intros s; simpl.
  - destruct s; split; eauto.
  - destruct s as [| b s]; simpl.
    + split; [discriminate | intros [post H]; discriminate H].
    + destruct (Ascii.ascii_dec a b) as [-> | Hne].
      * rewrite IH. split; intros [post H]; exists post;
          rewrite append_cons in *; congruence.
      * split; [discriminate |]. intros [post H].
        rewrite append_cons in H. congruence.
Qed.

Lemma contains_nil (t : string) :
  Str.contains t "" = String.prefix t "".
Proof. simpl. apply orb_false_r. Qed.

Lemma contains_cons (t : string) (b : ascii) (s : string) :
  Str.contains t (String b s)
  = String.prefix t (String b s) || Str.contains t s.
Proof. reflexivity. Qed.

Lemma contains_app (t s : string) :
  Str.contains t s = true <->
  exists pre post, s = (pre ++ t ++ post)%string.
Proof.
  induction s as [| b s IH].
  - rewrite contains_nil, prefix_app. split.
    + intros [post H]. exists "", post. exact H.
    + intros [pre [post H]]. destruct pre; [eauto |].
      rewrite append_cons in H. discriminate H.
  - rewrite contains_cons, orb_true_iff, IH, prefix_app. split.
    + intros [[post H] | [pre [post H]]].
      * exists "", post. exact H.
      * exists (String b pre), post. rewrite append_cons. now rewrite H.
    + intros [pre [post H]]. destruct pre as [| a pre].
      * left. eauto.
      * right. exists pre, post. rewrite append_cons in H. congruence.
Qed.

Lemma getitem_In (df : DataFrame) (c : string) :
  In c (columns df) -> exists s, getitem df c = Some s.
Proof.
  induction df as [| col df IH]; simpl; [tauto |].
  intros [<- | H].
  - rewrite String.eqb_refl. eauto.
  - destruct (String.eqb (name col) c); eauto.
Qed.

Lemma date_loop_In (f : series -> bool) (df : DataFrame)
    (candidates : list string) (c : string) :
  date_loop f df candidates = Some c -> In c candidates.
Proof.
  rewrite date_loop_find. intros H. now apply find_some in H.
Qed.

Lemma get_date_column_In (f : series -> bool) (df : DataFrame) (c : string) :
  get_date_column f df = Some c ->
  In c (find_columns_by_tokens df DATE_TOKENS).
Proof.
  unfold get_date_column.
  destruct (date_loop f df _) as [d |] eqn:E.
  - intros H. injection H as <-. eapply date_loop_In, E.
  - destruct (find_columns_by_tokens df DATE_TOKENS); simpl; [discriminate |].
    intros H. injection H as <-. now left.
Qed.

Lemma get_date_column_None (f : series -> bool) (df : DataFrame) :
  get_date_column f df = None <-> find_columns_by_tokens df DATE_TOKENS = [].
Proof.
  unfold get_date_column. split.
  - destruct (date_loop f df _); [discriminate |].
    destruct (find_columns_by_tokens df DATE_TOKENS); [reflexivity | discriminate].
  - intros ->. reflexivity.
Qed.

(** X1: the temporal column is [None] exactly when no label contains a date
    token, and a column that is returned is a column of the dataset whose
    label contains one. *)
Theorem get_date_column_matched (f : series -> bool) (df : DataFrame) :
  (get_date_column f df = None <->
   forall c, In c (columns df) -> has_token DATE_TOKENS c = false) /\
  (forall c, get_date_column f df = Some c ->
             In c (columns df) /\ has_token DATE_TOKENS c = true).
Proof.
  split.
  - rewrite get_date_column_None. apply find_columns_by_tokens_nil.
  - intros c H. apply find_columns_In. eapply get_date_column_In, H.
Qed.

Lemma insert_entry_perm (x : suspicious_entry) (l : list suspicious_entry) :
  Permutation (insert_entry x l) (x :: l).
Proof.
  induction l as [| e l IH]; simpl; [reflexivity |].
  destruct (key_lt e x); [| reflexivity].
  etransitivity; [apply perm_skip, IH | apply perm_swap].
Qed.

Lemma sorted_entries_perm (l : list suspicious_entry) :
  Permutation (sorted_entries l) l.
Proof.
  induction l as [| x l IH]; simpl; [reflexivity |].
  etransitivity; [apply insert_entry_perm | now apply perm_skip].
Qed.

Section SuspiciousFacts.

Variable mutual_info_classif : DataFrame -> list Z -> list Q.

(** X2: the sorted table holds every label but the target exactly as often
    as the dataset does; the reported list is its first 30 entries, and
    the whole table when there are at most 30 features. *)
Theorem suspicious_keeps_every_feature (df : DataFrame) (target : string)
    (y : list Z) :
  let features :=
    List.filter (fun c => negb (String.eqb c target)) (columns df) in
  Permutation
    (map feature (suspicious mutual_info_classif df target y)) features /\
  top_suspicious mutual_info_classif df target y
    = firstn 30 (suspicious mutual_info_classif df target y) /\
  ((List.length features <= 30)%nat ->
   top_suspicious mutual_info_classif df target y
     = suspicious mutual_info_classif df target y).
Proof.
  intros features. split; [| split; [reflexivity |]].
  - unfold suspicious. fold features.
    etransitivity; [apply Permutation_map, sorted_entries_perm |].
    rewrite map_map. simpl. now rewrite map_id.
  - intros Hlen. unfold top_suspicious. apply firstn_all2.
    unfold suspicious. fold features.
    now rewrite sorted_entries_length, length_map.
Qed.

End SuspiciousFacts.

(** ** Feasibility *)

Lemma get_site_column_None (df : DataFrame) :
  get_site_column df = None <-> find_columns_by_tokens df SITE_TOKENS = [].
Proof.
  unfold get_site_column.
  destruct (find_columns_by_tokens df SITE_TOKENS); simpl; split;
    congruence.
Qed.


(** X4: the site column returned is a column whose label contains a site
    token, and it is the first such label in code point order. *)
Theorem get_site_column_least (df : DataFrame) (c : string) :
  get_site_column df = Some c ->
  In c (columns df) /\ has_token SITE_TOKENS c = true /\
  forall d, In d (columns df) -> has_token SITE_TOKENS d = true ->
            String.leb c d = true.
Proof.
  unfold get_site_column. intros H.
  assert (Hc : In c (find_columns_by_tokens df SITE_TOKENS)).
  { destruct (find_columns_by_tokens df SITE_TOKENS); [discriminate |].
    injection H as ->. now left. }
  apply find_columns_In in Hc. destruct Hc as [Hc Ht].
  split; [exact Hc | split; [exact Ht |]].
  intros d Hd Htd.
  apply (hd_error_least (find_columns_by_tokens df SITE_TOKENS) c d).
  - apply sorted_labels_strongly.
  - exact H.
  - apply find_columns_In. tauto.
Qed.

(** ** Target detection, continued *)

Lemma lower_cols_fold_Some (cols : list string) (m : gmap string string)
    (h c : string) :
  fold_left (fun m c => <[Str.lower c := c]> m) cols m !! h = Some c ->
  m !! h = Some c \/ (In c cols /\ Str.lower c = h).
Proof.
  revert m. induction cols as [| d cols IH]; intros m H; simpl in *.
  - now left.
  - destruct (IH _ H) as [H' | [H1 H2]].
    + destruct (decide (Str.lower d = h)) as [E | NE].
      * rewrite <- E, lookup_insert_eq in H'. injection H' as <-.
        right. split; [now left | exact E].
      * rewrite lookup_insert_ne in H' by exact NE. now left.
    + right. split; [now right | exact H2].
Qed.

Lemma lower_cols_fold_is_Some (cols : list string) (m : gmap string string)
    (h : string) :
  is_Some (m !! h) \/ (exists c, In c cols /\ Str.lower c = h) ->
  is_Some (fold_left (fun m c => <[Str.lower c := c]> m) cols m !! h).
Proof.
  revert m. induction cols as [| d cols IH]; intros m H; simpl.
  - destruct H as [H | [c [[] _]]]. exact H.
  - apply IH. destruct (decide (Str.lower d = h)) as [E | NE].
    + left. rewrite <- E, lookup_insert_eq. eauto.
    + destruct H as [H | [c [[<- | Hc] E]]].
      * left. now rewrite lookup_insert_ne.
      * contradiction.
      * right. eauto.
Qed.

Lemma lower_cols_Some (df : DataFrame) (h c : string) :
  lower_cols df !! h = Some c -> In c (columns df) /\ Str.lower c = h.
Proof.
  unfold lower_cols. intros H.
  destruct (lower_cols_fold_Some _ _ _ _ H) as [H' | H']; [| exact H'].
  rewrite lookup_empty in H'. discriminate H'.
Qed.

Lemma first_hint_Some (hints : list string) (m : gmap string string)
    (c : string) :
  first_hint hints m = Some c -> exists h, In h hints /\ m !! h = Some c.
Proof.
  induction hints as [| h hints IH]; simpl; [discriminate |].
  destruct (m !! h) as [d |] eqn:E.
  - intros H. injection H as <-. exists h. split; [now left | exact E].
  - intros H. destruct (IH H) as [h' [H1 H2]]. exists h'. split; [now right | exact H2].
Qed.

Lemma first_hint_is_Some (hints : list string) (m : gmap string string)
    (h : string) :
  In h hints -> is_Some (m !! h) -> is_Some (first_hint hints m).
Proof.
  induction hints as [| h' hints IH]; simpl; [tauto |].
  intros [-> | Hin] Hs.
  - destruct Hs as [c ->]. eauto.
  - destruct (m !! h'); [eauto | now apply IH].
Qed.

Lemma first_preferred_Some (names : list string) (df : DataFrame) (n : string) :
  first_preferred names df = Some n -> In n names /\ In n (columns df).
Proof.
  induction names as [| n' names IH]; simpl; [discriminate |].
  destruct (Str.mem n' (columns df)) eqn:E.
  - intros H. injection H as <-. apply mem_In in E. tauto.
  - intros H. destruct (IH H). tauto.
Qed.

Lemma binary_candidates_In (df : DataFrame) (c : string) :
  In c (binary_candidates df) -> In c (columns df).
Proof.
  rewrite binary_candidates_filter. unfold columns. intros H.
  apply in_map_iff in H. destruct H as [col [<- Hc]].
  apply filter_In in Hc. apply in_map. tauto.
Qed.

Lemma detect_target_In (df : DataFrame) (t : string) :
  detect_target df = Ok t -> In t (columns df).
Proof.
  unfold detect_target.
  destruct (first_preferred TARGET_PREFERRED df) as [n |] eqn:Ep.
  - intros H. injection H as <-. now apply first_preferred_Some in Ep.
  - destruct (first_hint _ _) as [c |] eqn:Eh.
    + intros H. injection H as <-.
      apply first_hint_Some in Eh. destruct Eh as [h [_ Hh]].
      now apply lower_cols_Some in Hh.
    + destruct (binary_candidates df) as [| c [| d l]] eqn:Eb; try discriminate.
      intros H. injection H as <-. apply binary_candidates_In.
      rewrite Eb. now left.
Qed.

(** X5: without a preferred name, a column whose lowercased label is a hint
    word makes detection succeed with a column whose lowercased label is
    a hint word. *)
Theorem detect_target_exact_hint_found (df : DataFrame) (c : string) :
  (forall n, In n TARGET_PREFERRED -> ~ In n (columns df)) ->
  In c (columns df) -> In (Str.lower c) TARGET_CANDIDATE_HINTS ->
  exists t, detect_target df = Ok t /\
            In t (columns df) /\ In (Str.lower t) TARGET_CANDIDATE_HINTS.
Proof.
  intros Hp Hc Hh. unfold detect_target.
  rewrite (first_preferred_None _ _ Hp).
  assert (Hs : is_Some (first_hint TARGET_CANDIDATE_HINTS (lower_cols df))).
  { apply first_hint_is_Some with (h := Str.lower c); [exact Hh |].
    unfold lower_cols. apply lower_cols_fold_is_Some. right. eauto. }
  destruct Hs as [t Ht]. rewrite Ht. exists t. split; [reflexivity |].
  apply first_hint_Some in Ht. destruct Ht as [h [Hin Hl]].
  apply lower_cols_Some in Hl. destruct Hl as [Hl <-]. tauto.
Qed.

(** X6: when no label is a preferred name and no lowercased label is a hint
    word, detection returns [t] exactly when [t] is the only column that
    passes the binary test; with none or several it raises. *)
Theorem detect_target_fallback_unique (df : DataFrame) (t : string) :
  (forall n, In n TARGET_PREFERRED -> ~ In n (columns df)) ->
  (forall c, In c (columns df) -> ~ In (Str.lower c) TARGET_CANDIDATE_HINTS) ->
  (detect_target df = Ok t <->
   map name (List.filter is_binary_column df) = [t]).
Proof.
  intros Hp Hh. unfold detect_target.
  rewrite (first_preferred_None _ _ Hp).
  rewrite first_hint_None.
  - rewrite binary_candidates_filter.
    destruct (map name (List.filter is_binary_column df)) as [| c [| d l]];
      split; intros H; try discriminate H; congruence.
  - intros h Hin. unfold lower_cols. apply lower_cols_fold_None.
    + apply lookup_empty.
    + intros c Hc E. apply (Hh c Hc). now rewrite E.
Qed.

(** ** The binary test *)

Lemma Qeq_bool_congr (p q r : Q) :
  Qeq_bool p q = true -> Qeq_bool p r = Qeq_bool q r.
Proof.
  intros H. apply Qeq_bool_iff in H.
  destruct (Qeq_bool p r) eqn:E1, (Qeq_bool q r) eqn:E2; try reflexivity.
  - apply Qeq_bool_iff in E1. apply Qeq_bool_neq in E2.
    exfalso. apply E2. rewrite <- H. exact E1.
  - apply Qeq_bool_iff in E2. apply Qeq_bool_neq in E1.
    exfalso. apply E1. rewrite H. exact E2.
Qed.

Lemma existsb_pointwise {A : Type} (f g : A -> bool) (l : list A) :
  (forall x, f x = g x) -> existsb f l = existsb g l.
Proof.
  intros H. induction l as [| a l IH]; simpl; [reflexivity |].
  now rewrite H, IH.
Qed.

Lemma Qeq_bool_comm (p q : Q) : Qeq_bool p q = Qeq_bool q p.
Proof.
  destruct (Qeq_bool p q) eqn:E1, (Qeq_bool q p) eqn:E2; try reflexivity.
  - apply Qeq_bool_iff in E1. apply Qeq_bool_neq in E2.
    exfalso. apply E2. now symmetry.
  - apply Qeq_bool_iff in E2. apply Qeq_bool_neq in E1.
    exfalso. apply E1. now symmetry.
Qed.

(** The test [in_zero_one] does not tell equal cells apart. *)
Lemma in_zero_one_eqb (a b : cell) :
  cell_eqb a b = true -> in_zero_one a = in_zero_one b.
Proof.
  destruct a as [| p | s], b as [| q | t]; simpl; try discriminate;
    try reflexivity.
  intros H. now rewrite !(Qeq_bool_congr p q _ H).
Qed.

Lemma unique_from_subset (seen l : list cell) (c : cell) :
  In c (unique_from seen l) -> In c l.
Proof.
  revert seen. induction l as [| d l IH]; intros seen; simpl; [tauto |].
  destruct (existsb (cell_eqb d) seen); simpl.
  - intros H. right. eapply IH, H.
  - intros [<- | H]; [now left | right; eapply IH, H].
Qed.

Lemma unique_from_forallb (seen l : list cell) :
  forallb in_zero_one seen = true ->
  forallb in_zero_one (unique_from seen l) = true ->
  forallb in_zero_one l = true.
Proof.
  revert seen. induction l as [| d l IH]; intros seen Hs; simpl;
    [reflexivity |].
  destruct (existsb (cell_eqb d) seen) eqn:E; simpl.
  - intros H. apply existsb_exists in E. destruct E as [x [Hx Hd]].
    rewrite (in_zero_one_eqb d x Hd).
    rewrite (proj1 (forallb_forall _ _) Hs x Hx). simpl.
    now apply (IH seen).
  - intros H. apply andb_true_iff in H. destruct H as [Hd H].
    rewrite Hd. simpl. apply (IH (d :: seen)); [| exact H].
    simpl. now rewrite Hd.
Qed.

Lemma unique_from_length (seen l : list cell) :
  forallb in_zero_one l = true ->
  (List.length (unique_from seen l) + seen_count seen <= 2)%nat.
Proof.
  revert seen. induction l as [| d l IH]; intros seen Hl; simpl.
  - unfold seen_count. destruct (existsb _ seen), (existsb _ seen); lia.
  - simpl in Hl. apply andb_true_iff in Hl. destruct Hl as [Hd Hl].
    destruct (existsb (cell_eqb d) seen) eqn:E; [now apply IH |].
    simpl. specialize (IH (d :: seen) Hl).
    destruct d as [| q | s]; try discriminate Hd. simpl in Hd.
    unfold seen_count in *. simpl in IH.
    destruct (Qeq_bool q 0) eqn:E0.
    + rewrite (existsb_pointwise (cell_eqb (Num q)) (cell_eqb (Num 0))) in E.
      * rewrite E. rewrite (Qeq_bool_comm 0 q), E0 in IH. simpl in IH.
        destruct (Qeq_bool 1 q || existsb (cell_eqb (Num 1)) seen) eqn:E1;
          destruct (existsb (cell_eqb (Num 1)) seen) eqn:E1'; simpl in *;
          try lia; rewrite orb_true_r in E1; discriminate E1.
      * intros [| r | t]; simpl; try reflexivity.
        now apply Qeq_bool_congr.
    + simpl in Hd.
      rewrite (existsb_pointwise (cell_eqb (Num q)) (cell_eqb (Num 1))) in E.
      * rewrite E. rewrite (Qeq_bool_comm 1 q), Hd in IH. simpl in IH.
        destruct (Qeq_bool 0 q || existsb (cell_eqb (Num 0)) seen) eqn:E1;
          destruct (existsb (cell_eqb (Num 0)) seen) eqn:E1'; simpl in *;
          try lia; rewrite orb_true_r in E1; discriminate E1.
      * intros [| r | t]; simpl; try reflexivity.
        now apply Qeq_bool_congr.
Qed.

(** X7: a column passes the binary test exactly when each of its non-missing
    values equals 0 or 1; the bound on the number of distinct values
    rejects nothing, and a column with no value at all passes. *)
Theorem is_binary_column_iff (c : column) :
  is_binary_column c = true <->
  forallb in_zero_one (dropna (cells (data c))) = true.
Proof.
  unfold is_binary_column, unique. split.
  - intros H. apply andb_true_iff in H. destruct H as [_ H].
    now apply (unique_from_forallb []).
  - intros H. apply andb_true_iff. split.
    + apply Nat.leb_le.
      pose proof (unique_from_length [] _ H) as L. lia.
    + apply forallb_forall. intros x Hx.
      rewrite forallb_forall in H. apply H. eapply unique_from_subset, Hx.
Qed.

(** ** The table of discriminative scores *)

Lemma fold_score_notin (y : list Z) (df : DataFrame) (aucs : gmap string Q)
    (k : string) :
  ~ In k (columns df) ->
  fold_left (score_column y) df aucs !! k = aucs !! k.
Proof.
  revert aucs. induction df as [| c df IH]; intros aucs H; simpl;
    [reflexivity |].
  rewrite IH by (intros Hin; apply H; now right).
  unfold score_column. destruct (feature_score y (data c)); [| reflexivity].
  apply lookup_insert_ne. intros E. apply H. now left.
Qed.

Lemma fold_score_lookup (y : list Z) (df : DataFrame) (aucs : gmap string Q)
    (col : column) :
  List.NoDup (columns df) -> In col df ->
  fold_left (score_column y) df aucs !! name col =
  match feature_score y (data col) with
  | Ok s => Some (chance_distance s)
  | ValueError _ => aucs !! name col
  end.
Proof.
  revert aucs. induction df as [| c df IH]; intros aucs Hnd Hin; simpl;
    [destruct Hin |].
  inversion Hnd as [| c' l' Hc Hnd']; subst.
  destruct Hin as [-> | Hin].
  - rewrite fold_score_notin by exact Hc. unfold score_column.
    destruct (feature_score y (data col)); [apply lookup_insert_eq | reflexivity].
  - rewrite (IH _ Hnd' Hin).
    destruct (feature_score y (data col)); [reflexivity |].
    unfold score_column. destruct (feature_score y (data c)); [| reflexivity].
    apply lookup_insert_ne. intros E. apply Hc. rewrite E.
    unfold columns. now apply in_map.
Qed.

Lemma single_feature_auc_lookup (df : DataFrame) (y : list Z) (col : column) :
  List.NoDup (columns df) -> In col df ->
  single_feature_auc df y !! name col =
  match feature_score y (data col) with
  | Ok s => Some (chance_distance s)
  | ValueError _ => None
  end.
Proof.
  intros Hnd Hin. unfold single_feature_auc.
  rewrite (fold_score_lookup y df ∅ col Hnd Hin).
  destruct (feature_score y (data col)); [reflexivity | apply lookup_empty].
Qed.

Lemma single_feature_auc_keys (df : DataFrame) (y : list Z) (k : string) :
  is_Some (single_feature_auc df y !! k) -> In k (columns df).
Proof.
  intros [a H]. destruct (in_dec string_dec k (columns df)) as [Hin | Hn];
    [exact Hin |].
  unfold single_feature_auc in H. rewrite fold_score_notin in H by exact Hn.
  rewrite lookup_empty in H. discriminate H.
Qed.

(** Without exactly two classes in the target no feature is scored. *)
Lemma roc_auc_score_classes (y : list Z) (xs : list Q) (s : Q) :
  roc_auc_score y xs = Ok s -> List.length (np_unique y) = 2%nat.
Proof.
  unfold roc_auc_score. destruct (negb _); [discriminate |].
  destruct (np_unique y) as [| a [| b [| c l]]]; try discriminate.
  reflexivity.
Qed.

Lemma feature_score_classes (y : list Z) (x : series) (s : Q) :
  feature_score y x = Ok s -> List.length (np_unique y) = 2%nat.
Proof.
  unfold feature_score. destruct (is_numeric_dtype x).
  - destruct (numeric_scores x); [apply roc_auc_score_classes | discriminate].
  - apply roc_auc_score_classes.
Qed.


Lemma insert_unique_In (x z : Z) (l : list Z) :
  In x (insert_unique z l) <-> x = z \/ In x l.
Proof.
  induction l as [| a l IH]; simpl; [intuition |].
  destruct (Z.compare_spec z a) as [-> | H | H]; simpl.
  - intuition.
  - intuition.
  - rewrite IH. intuition.
Qed.

Lemma np_unique_In (x : Z) (y : list Z) : In x (np_unique y) <-> In x y.
Proof.
  unfold np_unique. induction y as [| z y IH]; simpl; [tauto |].
  rewrite insert_unique_In, IH. intuition.
Qed.

Lemma insert_unique_sorted (z : Z) (l : list Z) :
  Sorted Z.lt l -> Sorted Z.lt (insert_unique z l).
Proof.
  induction l as [| a l IH]; intros Hs; simpl.
  - repeat constructor.
  - inversion Hs as [| a' l' Hl Ha]; subst.
    destruct (Z.compare_spec z a) as [-> | H | H].
    + exact Hs.
    + constructor; [exact Hs | now constructor].
    + constructor; [apply IH, Hl |].
      destruct l as [| b l]; simpl.
      * now constructor.
      * inversion Ha; subst.
        destruct (Z.compare_spec z b); now constructor.
Qed.

Lemma np_unique_sorted (y : list Z) : Sorted Z.lt (np_unique y).
Proof.
  unfold np_unique. induction y as [| z y IH]; simpl; [constructor |].
  now apply insert_unique_sorted.
Qed.

Lemma scores_of_length (label : Z) (y : list Z) (xs : list Q) :
  List.length y = List.length xs -> In label y ->
  (0 < List.length (scores_of label y xs))%nat.
Proof.
  unfold scores_of. revert xs.
  induction y as [| l y IH]; intros xs Hlen Hin; [destruct Hin |].
  destruct xs as [| x xs]; [discriminate Hlen |]. simpl.
  destruct (Z.eqb_spec l label) as [-> | Hne]; simpl; [lia |].
  apply IH; [simpl in Hlen; lia |].
  destruct Hin as [E | Hin]; [contradiction | exact Hin].
Qed.

Lemma scores_of_In (label : Z) (y : list Z) (xs : list Q) (q : Q) :
  In q (scores_of label y xs) -> In q xs.
Proof.
  unfold scores_of. intros H. apply in_map_iff in H.
  destruct H as [[l x] [<- H]]. apply filter_In in H.
  destruct H as [H _]. eapply in_combine_r, H.
Qed.

(** When the score is defined both classes have rows. *)
Lemma roc_auc_score_Ok (y : list Z) (xs : list Q) (s : Q) :
  roc_auc_score y xs = Ok s ->
  exists a b,
    np_unique y = [a; b] /\ (a < b)%Z /\
    List.length y = List.length xs /\
    s = (pair_credit (scores_of b y xs) (scores_of a y xs)
         / count_pairs (scores_of b y xs) (scores_of a y xs))%Q /\
    (0 < count_pairs (scores_of b y xs) (scores_of a y xs))%Q.
Proof.
  unfold roc_auc_score.
  destruct (List.length y =? List.length xs)%nat eqn:El; simpl;
    [| discriminate].
  apply Nat.eqb_eq in El.
  destruct (np_unique y) as [| a [| b [| c l]]] eqn:Eu; try discriminate.
  intros H. injection H as <-. exists a, b.
  assert (Hs : Sorted Z.lt [a; b]) by (rewrite <- Eu; apply np_unique_sorted).
  assert (Hab : (a < b)%Z).
  { inversion Hs as [| ? ? _ Hh]; subst. now inversion Hh. }
  assert (Ha : In a y) by (apply np_unique_In; rewrite Eu; simpl; tauto).
  assert (Hb : In b y) by (apply np_unique_In; rewrite Eu; simpl; tauto).
  repeat split; try assumption; try reflexivity.
  unfold count_pairs.
  pose proof (scores_of_length a y xs El Ha).
  pose proof (scores_of_length b y xs El Hb).
  change 0%Q with (inject_Z 0). rewrite <- Zlt_Qlt. nia.
Qed.

Section RankingFacts.

Local Open Scope Q_scope.

(** Every pair earns the same credit [k]. *)
Lemma pair_credit_uniform (k : Q) (pos neg : list Q) :
  (forall p n, In p pos -> In n neg -> rank_credit p n == k) ->
  pair_credit pos neg == k * count_pairs pos neg.
Proof.
  intros H. unfold pair_credit, count_pairs.
  rewrite Nat2Z.inj_mul, inject_Z_mult.
  assert (Hin : forall p, In p pos ->
            sumQ (map (rank_credit p) neg)
            == k * inject_Z (Z.of_nat (List.length neg))).
  { intros p Hp. clear - H Hp. induction neg as [| n neg IH].
    - simpl. ring.
    - change (sumQ (map (rank_credit p) (n :: neg)))
        with (rank_credit p n + sumQ (map (rank_credit p) neg)).
      change (List.length (n :: neg)) with (S (List.length neg)).
      rewrite Nat2Z.inj_succ. unfold Z.succ. rewrite inject_Z_plus.
      rewrite IH by (intros p' n' Hp' Hn'; apply H; [exact Hp' | now right]).
      rewrite (H p n Hp) by now left.
      change (inject_Z 1) with 1. ring. }
  clear H. induction pos as [| p pos IH].
  - simpl. ring.
  - change (sumQ (map (fun p0 => sumQ (map (rank_credit p0) neg)) (p :: pos)))
      with (sumQ (map (rank_credit p) neg)
            + sumQ (map (fun p0 => sumQ (map (rank_credit p0) neg)) pos)).
    change (List.length (p :: pos)) with (S (List.length pos)).
    rewrite Nat2Z.inj_succ. unfold Z.succ. rewrite inject_Z_plus.
    rewrite IH by (intros p' Hp'; apply Hin; now right).
    rewrite (Hin p) by now left.
    change (inject_Z 1) with 1. ring.
Qed.

Lemma rank_credit_tie (p n : Q) : p == n -> rank_credit p n == 1 # 2.
Proof.
  intros H. unfold rank_credit. apply Qeq_alt in H. now rewrite H.
Qed.

Lemma rank_credit_win (p n : Q) : n < p -> rank_credit p n == 1.
Proof.
  intros H. unfold rank_credit. apply Qgt_alt in H. now rewrite H.
Qed.

(** A constant score cannot rank: its area is one half. *)
Lemma roc_auc_score_constant (y : list Z) (xs : list Q) (k s : Q) :
  (forall x, In x xs -> x == k) ->
  roc_auc_score y xs = Ok s -> s == 1 # 2.
Proof.
  intros Hk H. apply roc_auc_score_Ok in H.
  destruct H as [a [b [_ [_ [_ [-> Hpos]]]]]].
  rewrite (pair_credit_uniform (1 # 2)).
  - field. lra.
  - intros p n Hp Hn. apply rank_credit_tie.
    rewrite (Hk p) by (eapply scores_of_In, Hp).
    rewrite (Hk n) by (eapply scores_of_In, Hn). reflexivity.
Qed.

Lemma scores_of_copy (label : Z) (y : list Z) (q : Q) :
  In q (scores_of label y (map inject_Z y)) -> q = inject_Z label.
Proof.
  unfold scores_of. induction y as [| l y IH]; simpl; [tauto |].
  destruct (Z.eqb_spec l label) as [-> | Hne]; simpl.
  - intros [<- | H]; [reflexivity | now apply IH].
  - exact IH.
Qed.

(** A copy of the target ranks every pair correctly. *)
Lemma roc_auc_score_copy (y : list Z) (s : Q) :
  roc_auc_score y (map inject_Z y) = Ok s -> s == 1.
Proof.
  intros H. apply roc_auc_score_Ok in H.
  destruct H as [a [b [_ [Hab [_ [-> Hpos]]]]]].
  rewrite (pair_credit_uniform 1).
  - field. lra.
  - intros p n Hp Hn. apply rank_credit_win.
    rewrite (scores_of_copy _ _ _ Hp), (scores_of_copy _ _ _ Hn).
    now rewrite <- Zlt_Qlt.
Qed.

Lemma chance_distance_half (s : Q) : s == 1 # 2 -> chance_distance s == 1 # 2.
Proof.
  intros H. unfold chance_distance. apply Q.max_case_strong; intros; lra.
Qed.

Lemma chance_distance_one (s : Q) : s == 1 -> chance_distance s == 1.
Proof.
  intros H. unfold chance_distance. apply Q.max_case_strong; intros; lra.
Qed.

End RankingFacts.

(** ** Indicator columns *)

Lemma present_values_In (s : string) (v : list (option string)) :
  In s (present_values v) <-> In (Some s) v.
Proof.
  induction v as [| [t |] v IH]; simpl.
  - tauto.
  - rewrite IH. split; intros [H | H]; auto; left; congruence.
  - rewrite IH. split; [auto | intros [H | H]; [discriminate | exact H]].
Qed.

Lemma levels_In (s : string) (v : list (option string)) :
  In s (levels v) <-> In (Some s) v.
Proof.
  unfold levels. rewrite <- present_values_In. split; intros H.
  - apply (Permutation_in _ (sorted_labels_perm _)) in H.
    now apply fromkeys_In in H.
  - apply (Permutation_in _ (Permutation_sym (sorted_labels_perm _))).
    apply fromkeys_In. split; [exact H | intros []].
Qed.

Lemma levels_NoDup (v : list (option string)) : List.NoDup (levels v).
Proof.
  unfold levels. eapply Permutation_NoDup;
    [apply Permutation_sym, sorted_labels_perm | apply fromkeys_NoDup].
Qed.

Lemma count_level (s : string) (L : list string) :
  List.NoDup L ->
  List.length (List.filter (fun l => String.eqb s l) L)
  = if in_dec string_dec s L then 1%nat else 0%nat.
Proof.
  induction 1 as [| l L Hl Hnd IH]; simpl; [reflexivity |].
  destruct (String.eqb_spec s l) as [<- | Hne]; simpl.
  - rewrite IH. destruct (in_dec string_dec s L); [contradiction |].
    destruct (string_dec s s); [reflexivity | congruence].
  - rewrite IH. destruct (string_dec l s); [congruence |].
    destruct (in_dec string_dec s L); reflexivity.
Qed.

Lemma nth_map_at {A : Type} (f : A -> bool) (v : list A) (i : nat) (o : A) :
  nth_error v i = Some o -> nth i (map f v) false = f o.
Proof.
  revert i. induction v as [| a v IH]; intros [| i]; simpl; try discriminate.
  - intros H. now injection H as ->.
  - apply IH.
Qed.

(** Every row has exactly one indicator set. *)
Lemma one_indicator_per_row (v : list (option string)) (i : nat)
    (o : option string) :
  nth_error v i = Some o ->
  List.length (List.filter (fun c : string * list bool => nth i (snd c) false)
                           (get_dummies v)) = 1%nat.
Proof.
  intros Hi. unfold get_dummies. rewrite List.filter_app, length_app.
  assert (E1 : List.filter (fun c : string * list bool => nth i (snd c) false)
                 (map (fun l => (l, map (is_level l) v)) (levels v))
               = map (fun l => (l, map (is_level l) v))
                     (List.filter (fun l => is_level l o) (levels v))).
  { induction (levels v) as [| l L IH]; simpl; [reflexivity |].
    rewrite (nth_map_at _ _ _ _ Hi).
    destruct (is_level l o); simpl; now rewrite IH. }
  rewrite E1, length_map. simpl. rewrite (nth_map_at _ _ _ _ Hi).
  destruct o as [s |]; simpl.
  - rewrite (count_level s (levels v) (levels_NoDup v)).
    destruct (in_dec string_dec s (levels v)) as [_ | Hn]; [reflexivity |].
    exfalso. apply Hn, levels_In. eapply nth_error_In, Hi.
  - now rewrite filter_none.
Qed.

Lemma row_mean_constant (v : list (option string)) (x : Q) :
  In x (row_mean (get_dummies v) (List.length v)) ->
  x = (inject_Z 1 / inject_Z (Z.of_nat (List.length (get_dummies v))))%Q.
Proof.
  unfold row_mean. intros H. apply in_map_iff in H.
  destruct H as [i [<- Hi]]. apply in_seq in Hi.
  destruct (nth_error v i) as [o |] eqn:E.
  - now rewrite (one_indicator_per_row v i o E).
  - apply nth_error_None in E. lia.
Qed.

(** The proxy score of a categorical column is the same on every row, so
    its area is one half. *)
Lemma feature_score_object (y : list Z) (v : list (option string)) (s : Q) :
  feature_score y (ObjCol v) = Ok s -> (s == 1 # 2)%Q.
Proof.
  unfold feature_score. simpl.
  apply roc_auc_score_constant
    with (k := (inject_Z 1 / inject_Z (Z.of_nat (List.length (get_dummies v))))%Q).
  intros x Hx. rewrite (row_mean_constant v x Hx). reflexivity.
Qed.

Lemma drop_column_In (t : string) (df : DataFrame) (col : column) :
  In col (drop_column t df) <-> In col df /\ name col <> t.
Proof.
  unfold drop_column. rewrite filter_In, negb_true_iff, String.eqb_neq. tauto.
Qed.

Lemma NoDup_map_filter {A B : Type} (f : A -> B) (p : A -> bool) (l : list A) :
  List.NoDup (map f l) -> List.NoDup (map f (List.filter p l)).
Proof.
  induction l as [| a l IH]; simpl; intros H; [constructor |].
  inversion H as [| b l' Ha Hl]; subst.
  destruct (p a); simpl; [| now apply IH].
  constructor; [| now apply IH].
  intros Hin. apply Ha. apply in_map_iff in Hin.
  destruct Hin as [x [E Hx]]. apply filter_In in Hx.
  rewrite <- E. apply in_map. tauto.
Qed.

Lemma drop_column_NoDup (t : string) (df : DataFrame) :
  List.NoDup (columns df) -> List.NoDup (columns (drop_column t df)).
Proof. apply NoDup_map_filter. Qed.

Lemma roc_auc_score_defined (y : list Z) (xs : list Q) :
  List.length y = List.length xs -> List.length (np_unique y) = 2%nat ->
  exists s, roc_auc_score y xs = Ok s.
Proof.
  intros Hl Hu. unfold roc_auc_score.
  rewrite (proj2 (Nat.eqb_eq _ _) Hl). simpl.
  destruct (np_unique y) as [| a [| b [| c l]]]; try discriminate Hu.
  eauto.
Qed.

Lemma object_column_score (df : DataFrame) (y : list Z)
    (c : string) (v : list (option string)) (a : Q) :
  List.NoDup (columns df) ->
  In (Column c (ObjCol v)) df ->
  single_feature_auc df y !! c = Some a -> (a == 1 # 2)%Q.
Proof.
  intros Hnd Hin.
  pose proof (single_feature_auc_lookup df y (Column c (ObjCol v)) Hnd Hin) as L.
  simpl in L. rewrite L. clear L.
  destruct (feature_score y (ObjCol v)) as [s |] eqn:E; [| discriminate].
  intros H. injection H as <-.
  apply chance_distance_half. eapply feature_score_object, E.
Qed.

Lemma target_copy_score (df : DataFrame) (y : list Z) (c : string) :
  List.NoDup (columns df) ->
  In (Column c (IntCol y)) df ->
  List.length (np_unique y) = 2%nat ->
  exists a, single_feature_auc df y !! c = Some a /\ (a == 1)%Q.
Proof.
  intros Hnd Hin Hu.
  pose proof (single_feature_auc_lookup df y (Column c (IntCol y)) Hnd Hin) as L.
  simpl in L. rewrite L. clear L.
  unfold feature_score. simpl.
  destruct (roc_auc_score_defined y (map inject_Z y)) as [s Hs];
    [now rewrite length_map | exact Hu |].
  rewrite Hs. exists (chance_distance s). split; [reflexivity |].
  apply chance_distance_one. eapply roc_auc_score_copy, Hs.
Qed.

(** What [proxy_flags] lists. *)
Lemma proxy_flags_In (df : DataFrame) (target : string) (y : list Z)
    (f : string) :
  In f (proxy_flags df target y) <->
  exists a, single_feature_auc (drop_column target df) y !! f = Some a /\
            (98 # 100 <= a)%Q.
Proof.
  unfold proxy_flags. rewrite filter_In, fromkeys_In. split.
  - intros [_ H].
    destruct (single_feature_auc _ _ !! f) as [a |]; [| discriminate].
    exists a. split; [reflexivity | now apply Qle_bool_iff].
  - intros [a [Ha Hle]]. split.
    + split; [| intros []]. apply (single_feature_auc_keys _ y). now rewrite Ha.
    + rewrite Ha. now apply Qle_bool_iff.
Qed.

(** X9: the proxy flags hold each label once, they are exactly the keys of
    the score table whose score is at least 0.98, and the target is never
    among them. *)
Theorem proxy_flags_spec (df : DataFrame) (target : string) (y : list Z) :
  List.NoDup (proxy_flags df target y) /\
  (forall f, In f (proxy_flags df target y) ->
     exists a, single_feature_auc (drop_column target df) y !! f = Some a /\
               (98 # 100 <= a)%Q) /\
  (forall f a, single_feature_auc (drop_column target df) y !! f = Some a ->
               (98 # 100 <= a)%Q -> In f (proxy_flags df target y)) /\
  ~ In target (proxy_flags df target y).
Proof.
  split; [| split; [| split]].
  - unfold proxy_flags. apply List.NoDup_filter, fromkeys_NoDup.
  - intros f. apply proxy_flags_In.
  - intros f a Ha Hle. apply proxy_flags_In. eauto.
  - intros H. apply proxy_flags_In in H. destruct H as [a [Ha _]].
    assert (Hk : In target (columns (drop_column target df))).
    { apply (single_feature_auc_keys _ y). now rewrite Ha. }
    unfold columns in Hk. apply in_map_iff in Hk.
    destruct Hk as [col [E Hc]]. apply drop_column_In in Hc. tauto.
Qed.

(** X10: a feature that is a copy of a two-class target scores 1 and is among
    the proxy flags. *)
Theorem target_copy_is_flagged (df : DataFrame) (target : string)
    (y : list Z) (c : string) :
  List.NoDup (columns df) ->
  In (Column c (IntCol y)) df -> c <> target ->
  List.length (np_unique y) = 2%nat ->
  (exists a, single_feature_auc (drop_column target df) y !! c = Some a /\
             (a == 1)%Q) /\
  In c (proxy_flags df target y).
Proof.
  intros Hnd Hin Hne Hu.
  destruct (target_copy_score (drop_column target df) y c) as [a [Ha H1]].
  - now apply drop_column_NoDup.
  - apply drop_column_In. tauto.
  - exact Hu.
  - split; [eauto |]. apply proxy_flags_In.
    exists a. split; [exact Ha |]. rewrite H1. unfold Qle. simpl. lia.
Qed.

(** X11: the score of an object column, when it has one, is one half, since
    the row mean of its indicator columns is the same on every row; such
    a column is never among the proxy flags. *)
Theorem categorical_score_is_chance (df : DataFrame) (target : string)
    (y : list Z) (c : string) (v : list (option string)) :
  List.NoDup (columns df) ->
  In (Column c (ObjCol v)) df ->
  (forall a, single_feature_auc df y !! c = Some a -> (a == 1 # 2)%Q) /\
  ~ In c (proxy_flags df target y).
Proof.
  intros Hnd Hin. split.
  - intros a. now apply (object_column_score df y c v a).
  - intros H. apply proxy_flags_In in H. destruct H as [a [Ha Hle]].
    assert (Hc : In (Column c (ObjCol v)) (drop_column target df)).
    { apply drop_column_In. split; [exact Hin |]. simpl. intros ->.
      assert (Hk : In target (columns (drop_column target df))).
      { apply (single_feature_auc_keys _ y). now rewrite Ha. }
      unfold columns in Hk. apply in_map_iff in Hk.
      destruct Hk as [col [E Hcol]]. apply drop_column_In in Hcol. tauto. }
    pose proof (object_column_score (drop_column target df) y c v a
                  (drop_column_NoDup _ _ Hnd) Hc Ha) as Hh.
    rewrite Hh in Hle. unfold Qle in Hle. simpl in Hle. lia.
Qed.

(** ** The encoded matrix *)

Lemma prefixed_dummies_numeric (c : string) (x : series) (col : column) :
  In col (prefixed_dummies c x) -> is_numeric_dtype (data col) = true.
Proof.
  unfold prefixed_dummies. intros H. apply in_map_iff in H.
  destruct H as [d [<- _]]. reflexivity.
Qed.

(** An object column still in the matrix is one that is yet to be
    encoded. *)
Lemma fold_encode_numeric (rest acc : DataFrame) :
  (forall col, In col acc -> is_numeric_dtype (data col) = false ->
               In col rest) ->
  forall col, In col (fold_left encode_column rest acc) ->
              is_numeric_dtype (data col) = true.
Proof.
  revert acc. induction rest as [| c rest IH]; intros acc Hinv col Hin;
    simpl in Hin.
  - destruct (is_numeric_dtype (data col)) eqn:E; [reflexivity |].
    destruct (Hinv col Hin E).
  - apply (IH (encode_column acc c)); [| exact Hin].
    intros col' Hc' Hobj. unfold encode_column in Hc'.
    destruct (is_numeric_dtype (data c)) eqn:Ec.
    + destruct (Hinv col' Hc' Hobj) as [<- | H]; [congruence | exact H].
    + apply in_app_or in Hc'. destruct Hc' as [Hd | Hd].
      * apply drop_column_In in Hd. destruct Hd as [Hd Hn].
        destruct (Hinv col' Hd Hobj) as [<- | H]; [congruence | exact H].
      * apply prefixed_dummies_numeric in Hd. congruence.
Qed.

(** A column of the encoded matrix is a column of the input or an
    indicator of one of its object columns. *)
Lemma fold_encode_origin (rest acc : DataFrame) (col : column) :
  In col (fold_left encode_column rest acc) ->
  In col acc \/
  exists c d, In c rest /\ is_numeric_dtype (data c) = false /\
              In d (get_dummies (object_values (data c))) /\
              col = Column (name c ++ "_" ++ fst d)%string (BoolCol (snd d)).
Proof.
  revert acc. induction rest as [| c rest IH]; intros acc Hin; simpl in Hin;
    [now left |].
  destruct (IH _ Hin) as [H | [c' [d [Hc' H]]]].
  - unfold encode_column in H. destruct (is_numeric_dtype (data c)) eqn:E;
      [now left |].
    apply in_app_or in H. destruct H as [H | H].
    + apply drop_column_In in H. tauto.
    + right. unfold prefixed_dummies in H. apply in_map_iff in H.
      destruct H as [d [<- Hd]]. exists c, d. split; [now left | auto].
  - right. exists c', d. split; [now right | exact H].
Qed.

Lemma encode_numeric (X : DataFrame) (col : column) :
  In col (encode X) -> is_numeric_dtype (data col) = true.
Proof. apply fold_encode_numeric. auto. Qed.

Lemma all_present_filled (v : list (option Q)) :
  exists xs,
    all_present (map (fun o => match o with
                               | Some q => Some q
                               | None => Some 0%Q
                               end) v) = Some xs.
Proof.
  induction v as [| o v [xs IH]]; simpl; [eauto |].
  rewrite IH. destruct o; eauto.
Qed.

(** X12: the matrix handed to the mutual information estimator has no object
    column and no missing value, and filling does not change the labels. *)
Theorem encoded_matrix_is_numeric (X : DataFrame) :
  columns (fillna0 (encode X)) = columns (encode X) /\
  forall col, In col (fillna0 (encode X)) ->
    is_numeric_dtype (data col) = true /\
    exists xs, numeric_scores (data col) = Some xs.
Proof.
  split.
  - unfold fillna0, columns. rewrite map_map. apply map_ext.
    intros c. destruct (data c); reflexivity.
  - intros col Hin. unfold fillna0 in Hin. apply in_map_iff in Hin.
    destruct Hin as [c [<- Hc]]. apply encode_numeric in Hc.
    destruct c as [n [v | v | v | v]]; simpl in *; try discriminate Hc;
      split; try reflexivity; eauto.
    apply all_present_filled.
Qed.

(** A numeric column is never dropped by the encoding of the others. *)
Lemma fold_encode_keeps (rest acc : DataFrame) (col : column) :
  In col acc ->
  (forall c, In c rest -> is_numeric_dtype (data c) = false ->
             name c <> name col) ->
  In col (fold_left encode_column rest acc).
Proof.
  revert acc. induction rest as [| c rest IH]; intros acc Hin Hne; simpl;
    [exact Hin |].
  apply IH.
  - unfold encode_column. destruct (is_numeric_dtype (data c)) eqn:E;
      [exact Hin |].
    apply in_or_app. left. apply drop_column_In. split; [exact Hin |].
    intros Heq. apply (Hne c); [now left | exact E | now symmetry].
  - intros c' Hc'. apply Hne. now right.
Qed.

Lemma NoDup_names (df : DataFrame) (a b : column) :
  List.NoDup (columns df) -> In a df -> In b df -> name a = name b -> a = b.
Proof.
  induction df as [| c df IH]; simpl; intros Hnd Ha Hb E; [destruct Ha |].
  inversion Hnd as [| c' l Hc Hnd']; subst.
  destruct Ha as [-> | Ha], Hb as [-> | Hb].
  - reflexivity.
  - exfalso. apply Hc. rewrite E. unfold columns. now apply in_map.
  - exfalso. apply Hc. rewrite <- E. unfold columns. now apply in_map.
  - now apply IH.
Qed.

Lemma fold_insert_in (k : string) (l : list (string * Q)) (m : gmap string Q) :
  In k (map fst l) ->
  is_Some (fold_left (fun (m : gmap string Q) (kv : string * Q) =>
                        <[fst kv := snd kv]> m) l m !! k).
Proof.
  revert m. induction l as [| [k' v] l IH]; intros m H; simpl in *;
    [destruct H |].
  destruct (in_dec string_dec k (map fst l)) as [Hin | Hn].
  - now apply IH.
  - rewrite fold_insert_notin by exact Hn.
    destruct H as [<- | H]; [| contradiction].
    rewrite lookup_insert_eq. eauto.
Qed.

Lemma combine_fst {A B : Type} (ks : list A) (vs : list B) :
  List.length ks = List.length vs -> map fst (combine ks vs) = ks.
Proof.
  revert vs. induction ks as [| k ks IH]; intros [| v vs] H; simpl in *;
    try discriminate; [reflexivity |].
  f_equal. apply IH. lia.
Qed.

Section MutualInfoFacts.

Variable mutual_info_classif : DataFrame -> list Z -> list Q.

(** X13: with distinct labels and an estimator that returns one value per
    column, every numeric column has a mutual information entry under its
    own label. *)
Theorem numeric_column_has_mutual_info (X : DataFrame) (y : list Z)
    (col : column) :
  List.NoDup (columns X) -> In col X ->
  is_numeric_dtype (data col) = true ->
  List.length (mutual_info_classif (fillna0 (encode X)) y)
    = List.length (columns (encode X)) ->
  is_Some (mutual_info_scores mutual_info_classif X y !! name col).
Proof.
  intros Hnd Hin Hnum Hlen. unfold mutual_info_scores.
  apply fold_insert_in. rewrite combine_fst by now symmetry.
  unfold columns. apply in_map. unfold encode.
  apply fold_encode_keeps; [exact Hin |].
  intros c Hc Hobj E.
  rewrite (NoDup_names X c col Hnd Hc Hin E) in Hobj. congruence.
Qed.

(** X14: a key of the mutual information table is the label of a numeric
    column, or the label of an object column followed by an underscore
    and the label of one of its indicator columns. *)
Theorem mutual_info_keys (X : DataFrame) (y : list Z) (k : string) :
  is_Some (mutual_info_scores mutual_info_classif X y !! k) ->
  (exists col, In col X /\ is_numeric_dtype (data col) = true /\
               name col = k) \/
  (exists col d, In col X /\ is_numeric_dtype (data col) = false /\
                 In d (get_dummies (object_values (data col))) /\
                 k = (name col ++ "_" ++ fst d)%string).
Proof.
  intros [a H].
  destruct (in_dec string_dec k (columns (encode X))) as [Hin | Hn].
  - unfold columns in Hin. apply in_map_iff in Hin.
    destruct Hin as [col [<- Hc]].
    pose proof (encode_numeric X col Hc) as Hnum.
    destruct (fold_encode_origin X X col Hc) as [H0 | [c [d [Hc0 [Hobj [Hd ->]]]]]].
    + left. eauto.
    + right. exists c, d. auto.
  - rewrite mutual_info_scores_keys in H by exact Hn. discriminate H.
Qed.

End MutualInfoFacts.

(** ** The nested cross-validation summary *)

Lemma meanQ_bounds (l : list Q) :
  (forall x, In x l -> (0 <= x <= 1)%Q) -> (0 <= meanQ l <= 1)%Q.
Proof.
  intros H. unfold meanQ. apply ratio_bounds. now apply sumQ_bounds.
Qed.

Section NestedSummaryFacts.

Variables row model grid params fitted : Type.
Variable make_test_folds : nat -> list Z -> list nat.
Variable search_fit : model -> grid -> list row -> list Z -> fitted.
Variable best_params_ : fitted -> params.
Variable best_score_ : fitted -> Q.
Variable predict_proba : fitted -> list row -> list Q.

Lemma run_fold_Ok (m : model) (g : grid) (X : list row) (y : list Z)
    (k : nat) (tr te : list nat) (d : fold_detail params) :
  run_fold row model grid params fitted search_fit best_params_ best_score_
    predict_proba m g X y k tr te = Ok d ->
  fold params d = k /\ (0 <= test_auc params d <= 1)%Q /\
  List.length (np_unique (iloc y te)) = 2%nat.
Proof.
  unfold run_fold.
  destruct (roc_auc_score _ _) as [auc |] eqn:E; [| discriminate].
  intros H. injection H as <-. simpl.
  split; [reflexivity |]. split.
  - eapply roc_auc_score_bounds, E.
  - eapply roc_auc_score_classes, E.
Qed.

Lemma run_folds_Ok (m : model) (g : grid) (X : list row) (y : list Z)
    (k : nat) (fs : list (list nat * list nat))
    (ds : list (fold_detail params)) :
  run_folds row model grid params fitted search_fit best_params_ best_score_
    predict_proba m g X y k fs = Ok ds ->
  map (fold params) ds = seq k (List.length fs) /\
  (forall a, In a (map (test_auc params) ds) -> (0 <= a <= 1)%Q) /\
  Forall (fun f : list nat * list nat =>
            List.length (np_unique (iloc y (snd f))) = 2%nat) fs.
Proof.
  revert k ds. induction fs as [| [tr te] fs IH]; intros k ds; simpl.
  - intros H. injection H as <-.
    split; [reflexivity | split; [intros a [] | constructor]].
  - destruct (run_fold _ _ _ _ _ _ _ _ _ _ _ _ _ _ _ _) as [d |] eqn:Ed;
      [| discriminate].
    destruct (run_folds _ _ _ _ _ _ _ _ _ _ _ _ _ _ _) as [ds' |] eqn:Eds;
      [| discriminate].
    intros H. injection H as <-.
    apply run_fold_Ok in Ed. destruct Ed as [Ef [Eb Ec]].
    destruct (IH _ _ Eds) as [IH1 [IH2 IH3]]. simpl. split; [| split].
    + now rewrite Ef, IH1.
    + intros a [<- | Ha]; [exact Eb | now apply IH2].
    + now constructor.
Qed.




End NestedSummaryFacts.

(** ** Feature sets *)

Lemma getitem_Some_In (df : DataFrame) (c : string) (s : series) :
  getitem df c = Some s -> In c (columns df).
Proof.
  induction df as [| col df IH]; simpl; [discriminate |].
  destruct (String.eqb_spec (name col) c) as [E | NE].
  - intros _. now left.
  - intros H. right. now apply IH.
Qed.

Lemma getitem_None (df : DataFrame) (c : string) :
  getitem df c = None <-> ~ In c (columns df).
Proof.
  induction df as [| col df IH]; simpl; [tauto |].
  destruct (String.eqb_spec (name col) c) as [E | NE].
  - split; [discriminate | intros H; exfalso; apply H; now left].
  - rewrite IH. tauto.
Qed.

Lemma columns_filter_In (p : string -> bool) (df : DataFrame) (c : string) :
  In c (columns (List.filter (fun col => p (name col)) df)) <->
  In c (columns df) /\ p c = true.
Proof.
  unfold columns. rewrite !in_map_iff. split.
  - intros [col [<- H]]. apply filter_In in H. destruct H as [H1 H2].
    split; [exists col; tauto | exact H2].
  - intros [[col [<- H]] Hp]. exists col. split; [reflexivity |].
    now apply filter_In.
Qed.

Lemma dropped_labels_In (df : DataFrame) (target : string) (b : bool)
    (c : string) :
  In c (columns df) ->
  (In c (dropped_labels df target b) <->
   c = target \/ has_token ID_TOKENS c = true \/
   (b = true /\ has_token COGNITIVE_TOKENS c = true)).
Proof.
  intros Hc. unfold dropped_labels, get_id_like_columns, get_cognitive_columns.
  simpl. rewrite in_app_iff, filter_In, find_columns_In.
  rewrite negb_true_iff, String.eqb_neq.
  destruct b.
  - rewrite find_columns_In.
    destruct (string_dec c target) as [-> | Hne]; [tauto |].
    split; [intros [H | [H | H]]; [auto | tauto | tauto] |].
    intros [H | [H | [_ H]]]; [auto | tauto | tauto].
  - destruct (string_dec c target) as [-> | Hne]; [tauto |].
    simpl. split; [intros [H | [H | []]]; [auto | tauto] |].
    intros [H | [H | [H _]]]; [auto | tauto | discriminate].
Qed.

(** The labels [split_features] keeps. *)
Lemma kept_label_iff (df : DataFrame) (target : string) (b : bool)
    (c : string) :
  In c (columns
          (List.filter
             (fun col => negb (Str.mem (name col)
                                 (dropped_labels df target b))) df)) <->
  In c (columns df) /\ c <> target /\
  has_token ID_TOKENS c = false /\
  (b = true -> has_token COGNITIVE_TOKENS c = false).
Proof.
  rewrite (columns_filter_In
             (fun n => negb (Str.mem n (dropped_labels df target b)))).
  rewrite negb_true_iff. split.
  - intros [Hc Hm].
    assert (Hn : ~ In c (dropped_labels df target b)).
    { intros Hin. apply mem_In in Hin. congruence. }
    rewrite (dropped_labels_In df target b c Hc) in Hn.
    split; [exact Hc |]. split; [tauto |]. split.
    + destruct (has_token ID_TOKENS c); [tauto | reflexivity].
    + intros ->. destruct (has_token COGNITIVE_TOKENS c); [tauto | reflexivity].
  - intros [Hc [Hne [Hid Hcog]]]. split; [exact Hc |].
    destruct (Str.mem c (dropped_labels df target b)) eqn:E; [| reflexivity].
    apply mem_In in E. apply (dropped_labels_In df target b c Hc) in E.
    destruct E as [E | [E | [E1 E2]]]; [contradiction | congruence |].
    rewrite (Hcog E1) in E2. discriminate E2.
Qed.

Section SplitFeaturesFacts.

Variable int_of_text : string -> option Z.



(** X20: when the feature set with cognitive columns is built, so is the one
    without, with the same labels [y]; its columns are those of the
    first that hold no cognitive token. *)
Theorem split_features_both_sets (df : DataFrame) (target : string)
    (X_all : DataFrame) (y : list Z) (used_all : list string) :
  split_features int_of_text df target false = inr (X_all, y, used_all) ->
  exists X_nocog used_nocog,
    split_features int_of_text df target true = inr (X_nocog, y, used_nocog) /\
    (forall c, In c used_nocog -> In c used_all) /\
    (forall c, In c used_all -> has_token COGNITIVE_TOKENS c = false ->
               In c used_nocog).
Proof.
  unfold split_features.
  destruct (getitem df target) as [s |]; [| discriminate].
  destruct (astype_int int_of_text s) as [y' |]; [| discriminate].
  intros H. injection H as <- <- <-.
  eexists. eexists. split; [reflexivity |]. split.
  - intros c Hc. apply (proj1 (kept_label_iff df target true c)) in Hc.
    apply (proj2 (kept_label_iff df target false c)).
    intuition discriminate.
  - intros c Hc Hcog. apply (proj1 (kept_label_iff df target false c)) in Hc.
    apply (proj2 (kept_label_iff df target true c)).
    intuition.
Qed.

(** X21: [split_features] does not raise [KeyError] on a target found by
    [detect_target]. *)
Theorem detected_target_is_splittable (df : DataFrame) (target : string)
    (b : bool) :
  detect_target df = Ok target ->
  split_features int_of_text df target b <> inl (KeyError target).
Proof.
  intros H E. apply detect_target_In in H.
  unfold split_features in E.
  destruct (getitem df target) as [s |] eqn:Eg.
  - destruct (astype_int int_of_text s); discriminate E.
  - apply getitem_None in Eg. contradiction.
Qed.

End SplitFeaturesFacts.

(** ** The columns of the preprocessing pipeline *)

Lemma mem_numeric_cols (X : DataFrame) (col : column) :
  List.NoDup (columns X) -> In col X ->
  Str.mem (name col) (numeric_cols X) = is_numeric_dtype (data col).
Proof.
  intros Hnd Hin. destruct (is_numeric_dtype (data col)) eqn:E.
  - apply mem_In. unfold numeric_cols. apply in_map. now apply filter_In.
  - destruct (Str.mem (name col) (numeric_cols X)) eqn:M; [| reflexivity].
    apply mem_In in M. unfold numeric_cols in M. apply in_map_iff in M.
    destruct M as [c [Ec Hc]]. apply filter_In in Hc. destruct Hc as [Hc Hn].
    rewrite (NoDup_names X c col Hnd Hc Hin Ec) in Hn. congruence.
Qed.

Lemma filter_map_name (p : string -> bool) (X : DataFrame) :
  List.filter p (map name X) = map name (List.filter (fun c => p (name c)) X).
Proof.
  induction X as [| c X IH]; simpl; [reflexivity |].
  destruct (p (name c)); simpl; now rewrite IH.
Qed.

Lemma filter_partition_perm {A : Type} (p : A -> bool) (l : list A) :
  Permutation (List.filter p l ++ List.filter (fun a => negb (p a)) l) l.
Proof.
  etransitivity.
  - apply (filter_split_perm _ _ (fun _ => true)).
    + intros a. now destruct (p a).
    + intros a Ha. now rewrite Ha.
  - now rewrite filter_all.
Qed.

(** X22: with distinct labels, the numeric list of the pipeline holds the
    columns of numeric dtype and the categorical list the others, in
    column order; together they are all the columns, and no label is in
    both. *)
Theorem build_pipeline_partition {model : Type} (X : DataFrame) (m : model) :
  List.NoDup (columns X) ->
  let p := build_pipeline X m in
  num p = map name (List.filter (fun c => is_numeric_dtype (data c)) X) /\
  cat p = map name
            (List.filter (fun c => negb (is_numeric_dtype (data c))) X) /\
  Permutation (num p ++ cat p) (columns X) /\
  (forall c, In c (num p) -> ~ In c (cat p)).
Proof.
  intros Hnd p.
  assert (Hcat : categorical_cols X
                 = map name (List.filter
                               (fun c => negb (is_numeric_dtype (data c))) X)).
  { unfold categorical_cols, columns. rewrite filter_map_name. f_equal.
    apply List.filter_ext_in. intros c Hc. now rewrite mem_numeric_cols. }
  split; [reflexivity |]. split; [exact Hcat |]. split.
  - simpl. rewrite Hcat. unfold numeric_cols, columns.
    rewrite <- map_app. apply Permutation_map, filter_partition_perm.
  - simpl. unfold categorical_cols. intros c Hc Hin.
    apply filter_In in Hin. destruct Hin as [_ Hin].
    apply negb_true_iff in Hin. apply mem_In in Hc. congruence.
Qed.

(** X23: the labels returned for a token list are exactly the labels of the
    dataset that contain a token once lowercased, in ascending code point
    order and each once. *)
Theorem find_columns_by_tokens_spec (df : DataFrame) (tokens : list string) :
  (forall c, In c (find_columns_by_tokens df tokens) <->
             In c (columns df) /\ has_token tokens c = true) /\
  StronglySorted label_le (find_columns_by_tokens df tokens) /\
  List.NoDup (find_columns_by_tokens df tokens).
Proof.
  split; [| split].
  - intros c. apply find_columns_In.
  - apply sorted_labels_strongly.
  - unfold find_columns_by_tokens. eapply Permutation_NoDup;
      [apply Permutation_sym, sorted_labels_perm | apply fromkeys_NoDup].
Qed.

(** X24: a label matches a token list exactly when its lowercased form can be
    cut into a prefix, one of the tokens and a suffix. *)
Theorem has_token_iff (tokens : list string) (c : string) :
  has_token tokens c = true <->
  exists t pre post,
    In t tokens /\ Str.lower c = (pre ++ t ++ post)%string.
Proof.
  unfold has_token. rewrite existsb_exists. split.
  - intros [t [Ht H]]. apply contains_app in H.
    destruct H as [pre [post H]]. exists t, pre, post. tauto.
  - intros [t [pre [post [Ht H]]]]. exists t. split; [exact Ht |].
    apply contains_app. eauto.
Qed.

(** X25: a target that is returned is a label of the dataset, so the column
    can be read. *)
Theorem detect_target_returns_column (df : DataFrame) (t : string) :
  detect_target df = Ok t ->
  In t (columns df) /\ exists s, getitem df t = Some s.
Proof.
  intros H. apply detect_target_In in H. split; [exact H |].
  now apply getitem_In.
Qed.

(** X26: with distinct labels, the table holds for every column the folded
    score of that column when its score is defined and no entry when its
    computation raises; every key of the table is a label of the dataset. *)
Theorem single_feature_auc_entries (df : DataFrame) (y : list Z) :
  List.NoDup (columns df) ->
  (forall col, In col df ->
     single_feature_auc df y !! name col =
     match feature_score y (data col) with
     | Ok s => Some (chance_distance s)
     | ValueError _ => None
     end) /\
  (forall k, is_Some (single_feature_auc df y !! k) -> In k (columns df)).
Proof.
  intros Hnd. split.
  - intros col Hin. now apply single_feature_auc_lookup.
  - apply single_feature_auc_keys.
Qed.

Lemma all_present_missing (v : list (option Q)) :
  In None v -> all_present v = None.
Proof.
  induction v as [| [q |] v IH]; simpl; [tauto | | reflexivity].
  intros [H | H]; [discriminate |]. now rewrite IH.
Qed.

(** X27: a float column with a missing value gets no score. *)
Theorem column_with_missing_value_unscored (df : DataFrame) (y : list Z)
    (c : string) (v : list (option Q)) :
  List.NoDup (columns df) ->
  In (Column c (FloatCol v)) df -> In None v ->
  single_feature_auc df y !! c = None.
Proof.
  intros Hnd Hin Hv.
  pose proof (single_feature_auc_lookup df y (Column c (FloatCol v)) Hnd Hin)
    as L.
  simpl in L. rewrite L. unfold feature_score. simpl.
  now rewrite all_present_missing.
Qed.

(** ** Cut points of the temporal split *)

Lemma all_below_spec (k : nat) (p : Z -> bool) :
  all_below k p = true ->
  forall n, (0 <= n < Z.of_nat k)%Z -> p n = true.
Proof.
  induction k as [| k IH]; simpl; intros H n Hn; [lia |].
  apply andb_true_iff in H. destruct H as [Hk H].
  destruct (Z.eq_dec n (Z.of_nat k)) as [-> | Hne]; [exact Hk |].
  apply IH; [exact H | lia].
Qed.

Lemma cut_points_checked : all_below (Z.to_nat 10000) sizes_ok = true.
Proof. vm_compute. reflexivity. Qed.


(** ** Instances *)

Ltac nodup_labels :=
  repeat (constructor; [simpl; intuition discriminate |]); constructor.

Lemma detect_target_returns_column_witness :
  detect_target ex_one_binary = Ok "Smoker" /\
  In "Smoker" (columns ex_one_binary) /\
  exists s, getitem ex_one_binary "Smoker" = Some s.
Proof.
  assert (H : detect_target ex_one_binary = Ok "Smoker") by reflexivity.
  split; [exact H |].
  exact (detect_target_returns_column ex_one_binary "Smoker" H).
Defined.

Lemma detect_target_exact_hint_found_witness :
  exists t, detect_target ex_exact_hint = Ok t /\
            In t (columns ex_exact_hint) /\
            In (Str.lower t) TARGET_CANDIDATE_HINTS.
Proof.
  apply (detect_target_exact_hint_found ex_exact_hint "OUTCOME").
  - intros n Hn Hc. simpl in Hn, Hc.
    destruct Hn as [<- | [<- | []]];
      repeat (destruct Hc as [Hc | Hc]; [discriminate Hc |]); exact Hc.
  - simpl. tauto.
  - simpl. tauto.
Defined.

Lemma detect_target_fallback_unique_witness :
  detect_target ex_one_binary = Ok "Smoker" <->
  map name (List.filter is_binary_column ex_one_binary) = ["Smoker"].
Proof.
  apply (detect_target_fallback_unique ex_one_binary "Smoker").
  - intros n Hn Hc. simpl in Hn, Hc.
    destruct Hn as [<- | [<- | []]];
      repeat (destruct Hc as [Hc | Hc]; [discriminate Hc |]); exact Hc.
  - intros c Hc Hh. simpl in Hc.
    repeat (destruct Hc as [<- | Hc];
            [simpl in Hh;
             repeat (destruct Hh as [Hh | Hh]; [discriminate Hh |]); exact Hh |]).
    exact Hc.
Defined.

Lemma get_site_column_least_witness :
  get_site_column ex_sites = Some "Hospital_Code" /\
  String.leb "Hospital_Code" "Site" = true.
Proof.
  assert (H : get_site_column ex_sites = Some "Hospital_Code") by reflexivity.
  split; [exact H |].
  apply (proj2 (proj2 (get_site_column_least ex_sites "Hospital_Code" H))).
  - simpl. tauto.
  - reflexivity.
Defined.


Lemma single_feature_auc_entries_witness :
  single_feature_auc ex_nan ex_mixed_y !! "BMI" = None /\
  exists a, single_feature_auc ex_nan ex_mixed_y !! "Age" = Some a.
Proof.
  assert (Hnd : List.NoDup (columns ex_nan)) by nodup_labels.
  destruct (single_feature_auc_entries ex_nan ex_mixed_y Hnd) as [H _].
  split.
  - exact (H (Column "BMI" (FloatCol [Some 22; None; Some 30; Some 28]%Q))
             (or_introl eq_refl)).
  - eexists.
    exact (H (Column "Age" (IntCol [70; 61; 83; 77]%Z))
             (or_intror (or_introl eq_refl))).
Defined.


Lemma column_with_missing_value_unscored_witness :
  single_feature_auc ex_nan ex_mixed_y !! "BMI" = None.
Proof.
  apply (column_with_missing_value_unscored ex_nan ex_mixed_y "BMI"
           [Some 22; None; Some 30; Some 28]%Q).
  - nodup_labels.
  - simpl. tauto.
  - simpl. tauto.
Defined.

Lemma categorical_score_is_chance_witness :
  (forall a, single_feature_auc ex_mixed ex_mixed_y !! "Gender" = Some a ->
             (a == 1 # 2)%Q) /\
  ~ In "Gender" (proxy_flags ex_mixed "Diagnosis" ex_mixed_y).
Proof.
  apply (categorical_score_is_chance ex_mixed "Diagnosis" ex_mixed_y "Gender"
           [Some "M"; Some "F"; Some "F"; Some "M"]).
  - nodup_labels.
  - simpl. tauto.
Defined.

Lemma target_copy_is_flagged_witness :
  (exists a, single_feature_auc (drop_column "Diagnosis" ex_copy) ex_mixed_y
               !! "Leak" = Some a /\ (a == 1)%Q) /\
  In "Leak" (proxy_flags ex_copy "Diagnosis" ex_mixed_y).
Proof.
  apply (target_copy_is_flagged ex_copy "Diagnosis" ex_mixed_y "Leak").
  - nodup_labels.
  - simpl. tauto.
  - discriminate.
  - reflexivity.
Defined.

Lemma numeric_column_has_mutual_info_witness :
  is_Some (mutual_info_scores ex_mutual_info
             (drop_column "Diagnosis" ex_mixed) ex_mixed_y !! "Age").
Proof.
  apply (numeric_column_has_mutual_info ex_mutual_info
           (drop_column "Diagnosis" ex_mixed) ex_mixed_y
           (Column "Age" (IntCol [70; 61; 83; 77]%Z))).
  - nodup_labels.
  - simpl. tauto.
  - reflexivity.
  - reflexivity.
Defined.

Lemma mutual_info_keys_witness :
  is_Some (mutual_info_scores ex_mutual_info
             (drop_column "Diagnosis" ex_mixed) ex_mixed_y !! "Gender_F") /\
  ((exists col, In col (drop_column "Diagnosis" ex_mixed) /\
                is_numeric_dtype (data col) = true /\
                name col = "Gender_F") \/
   (exists col d, In col (drop_column "Diagnosis" ex_mixed) /\
                  is_numeric_dtype (data col) = false /\
                  In d (get_dummies (object_values (data col))) /\
                  "Gender_F" = (name col ++ "_" ++ fst d)%string)).
Proof.
  assert (H : is_Some (mutual_info_scores ex_mutual_info
                         (drop_column "Diagnosis" ex_mixed) ex_mixed_y
                       !! "Gender_F")).
  { exists (1 # 10)%Q. vm_compute. reflexivity. }
  split; [exact H |].
  exact (mutual_info_keys ex_mutual_info
           (drop_column "Diagnosis" ex_mixed) ex_mixed_y "Gender_F" H).
Defined.




Lemma split_features_both_sets_witness :
  exists X_all y used_all X_nocog used_nocog,
    split_features ex_int_of_text ex_clinical "Diagnosis" false
      = inr (X_all, y, used_all) /\
    split_features ex_int_of_text ex_clinical "Diagnosis" true
      = inr (X_nocog, y, used_nocog) /\
    (forall c, In c used_nocog -> In c used_all).
Proof.
  destruct (split_features ex_int_of_text ex_clinical "Diagnosis" false)
    as [e | [[X y] used]] eqn:E; [vm_compute in E; discriminate E |].
  destruct (split_features_both_sets ex_int_of_text ex_clinical "Diagnosis"
              X y used E) as [Xn [un [H1 [H2 _]]]].
  exists X, y, used, Xn, un. split; [reflexivity | split; assumption].
Defined.

Lemma detected_target_is_splittable_witness :
  detect_target ex_clinical = Ok "Diagnosis" /\
  split_features ex_int_of_text ex_clinical "Diagnosis" true
    <> inl (KeyError "Diagnosis").
Proof.
  assert (H : detect_target ex_clinical = Ok "Diagnosis") by reflexivity.
  split; [exact H |].
  exact (detected_target_is_splittable ex_int_of_text ex_clinical "Diagnosis"
           true H).
Defined.

Lemma build_pipeline_partition_witness :
  num (build_pipeline ex_clinical tt) = ["PatientID"; "Age"; "MMSE"; "Diagnosis"] /\
  cat (build_pipeline ex_clinical tt) = ["Gender"] /\
  Permutation (num (build_pipeline ex_clinical tt)
               ++ cat (build_pipeline ex_clinical tt)) (columns ex_clinical).
Proof.
  assert (Hnd : List.NoDup (columns ex_clinical)) by nodup_labels.
  pose proof (build_pipeline_partition ex_clinical tt Hnd) as H.
  simpl in H. destruct H as [H1 [H2 [H3 _]]].
  split; [reflexivity | split; [reflexivity | exact H3]].
Defined.
